(** * ThreadPool.hpp: a model of the pool and of its accounting

    The pool of [ThreadPool.hpp] is one record of shared state (the handle
    vector, the task queue, five [size_t] counters and the stop flag) that the
    public member functions and the worker threads update under one mutex.

    The model keeps that record as it is declared, runs every member function
    as one function on it, and runs the worker body [_working_task] as a step
    function, one critical section per step.  Functions that can end the
    process ([std::terminate] out of a [noexcept] function) or that have no
    defined behaviour return [None].  A submitted closure is opaque: running it
    does not touch the pool. *)

From Stdlib Require Import ZArith Lia Bool.
From stdpp Require Import base list option.

Local Open Scope Z_scope.

(** ** [size_t] arithmetic (64 bits, wrapping) *)

Definition size_modulus : Z := 18446744073709551616.

Definition is_size (z : Z) : Prop := 0 <= z < size_modulus.

Definition size_add (a b : Z) : Z := (a + b) mod size_modulus.

(** [x++] on a [size_t] *)
Definition size_incr (a : Z) : Z := size_add a 1.

Section Pool.

(** [std::function<void()>] *)
Context {Task : Type}.

(** ** Data model *)

(** A thread of execution running [_working_task]: blocked on [_condition],
    between [task()] being taken and its completion, or returned. *)
Inductive worker : Type :=
  | Waiting
  | Running (task : Task)
  | Exited.

(** A [std::thread] object: it owns a thread of execution, or (after [join]
    or [detach]) it owns none. *)
Inductive thread : Type :=
  | Joinable (w : worker)
  | NotJoinable.

Definition joinable (t : thread) : bool :=
  match t with Joinable _ => true | NotJoinable => false end.

(** The members of [class ThreadPool].  [detached_threads] is not a member:
    it holds the threads of execution that [Detach] released, which keep
    running the worker body on the pool. *)
Record pool : Type := {
  _threads : list thread;
  _tasks : list Task;
  _num_threads : Z;
  _num_started : Z;
  _num_killed : Z;
  _num_finished : Z;
  _num_detached : Z;
  _stop : bool;
  detached_threads : list worker
}.

Definition with_threads (v : list thread) (s : pool) : pool :=
  {| _threads := v; _tasks := _tasks s; _num_threads := _num_threads s;
     _num_started := _num_started s; _num_killed := _num_killed s;
     _num_finished := _num_finished s; _num_detached := _num_detached s;
     _stop := _stop s; detached_threads := detached_threads s |}.

Definition with_tasks (q : list Task) (s : pool) : pool :=
  {| _threads := _threads s; _tasks := q; _num_threads := _num_threads s;
     _num_started := _num_started s; _num_killed := _num_killed s;
     _num_finished := _num_finished s; _num_detached := _num_detached s;
     _stop := _stop s; detached_threads := detached_threads s |}.

Definition with_num_threads (n : Z) (s : pool) : pool :=
  {| _threads := _threads s; _tasks := _tasks s; _num_threads := n;
     _num_started := _num_started s; _num_killed := _num_killed s;
     _num_finished := _num_finished s; _num_detached := _num_detached s;
     _stop := _stop s; detached_threads := detached_threads s |}.

Definition with_started (n : Z) (s : pool) : pool :=
  {| _threads := _threads s; _tasks := _tasks s; _num_threads := _num_threads s;
     _num_started := n; _num_killed := _num_killed s;
     _num_finished := _num_finished s; _num_detached := _num_detached s;
     _stop := _stop s; detached_threads := detached_threads s |}.

Definition with_killed (n : Z) (s : pool) : pool :=
  {| _threads := _threads s; _tasks := _tasks s; _num_threads := _num_threads s;
     _num_started := _num_started s; _num_killed := n;
     _num_finished := _num_finished s; _num_detached := _num_detached s;
     _stop := _stop s; detached_threads := detached_threads s |}.

Definition with_finished (n : Z) (s : pool) : pool :=
  {| _threads := _threads s; _tasks := _tasks s; _num_threads := _num_threads s;
     _num_started := _num_started s; _num_killed := _num_killed s;
     _num_finished := n; _num_detached := _num_detached s;
     _stop := _stop s; detached_threads := detached_threads s |}.

Definition with_detached (n : Z) (s : pool) : pool :=
  {| _threads := _threads s; _tasks := _tasks s; _num_threads := _num_threads s;
     _num_started := _num_started s; _num_killed := _num_killed s;
     _num_finished := _num_finished s; _num_detached := n;
     _stop := _stop s; detached_threads := detached_threads s |}.

Definition with_stop (b : bool) (s : pool) : pool :=
  {| _threads := _threads s; _tasks := _tasks s; _num_threads := _num_threads s;
     _num_started := _num_started s; _num_killed := _num_killed s;
     _num_finished := _num_finished s; _num_detached := _num_detached s;
     _stop := b; detached_threads := detached_threads s |}.

Definition with_detached_threads (v : list worker) (s : pool) : pool :=
  {| _threads := _threads s; _tasks := _tasks s; _num_threads := _num_threads s;
     _num_started := _num_started s; _num_killed := _num_killed s;
     _num_finished := _num_finished s; _num_detached := _num_detached s;
     _stop := _stop s; detached_threads := v |}.

(** ** The worker body, [_working_task]

    One step is one critical section of the loop: the first takes the front
    task (or returns, when the pool is stopped and the queue is empty, or
    stays blocked in [_condition.wait]), the second counts the task that has
    just run. *)
Definition _working_task (w : worker) (s : pool) : option (worker * pool) :=
  match w with
  | Waiting =>
      match _tasks s with
      | task :: q => Some (Running task, with_tasks q s)
      | [] => if _stop s then Some (Exited, s) else None
      end
  | Running _ => Some (Waiting, with_finished (size_incr (_num_finished s)) s)
  | Exited => None
  end.

(** The threads that run the worker body: the one owned by [_threads[i]], or
    the [j]-th detached one. *)
Inductive worker_id : Type :=
  | Owned (i : nat)
  | Released (j : nat).

Definition worker_step (id : worker_id) (s : pool) : option pool :=
  match id with
  | Owned i =>
      match _threads s !! i with
      | Some (Joinable w) =>
          match _working_task w s with
          | Some (w', s') => Some (with_threads (<[i := Joinable w']> (_threads s')) s')
          | None => None
          end
      | _ => None
      end
  | Released j =>
      match detached_threads s !! j with
      | Some w =>
          match _working_task w s with
          | Some (w', s') =>
              Some (with_detached_threads (<[j := w']> (detached_threads s')) s')
          | None => None
          end
      | None => None
      end
  end.

(** Worker steps alone, in a given order; a worker that cannot step is
    skipped. *)
Fixpoint run_workers (sched : list worker_id) (s : pool) : pool :=
  match sched with
  | [] => s
  | id :: rest =>
      match worker_step id s with
      | Some s' => run_workers rest s'
      | None => run_workers rest s
      end
  end.

(** [std::thread::join]: the caller blocks while the joined thread runs its
    loop to the [return].  The joined thread is the one that runs here; a
    thread that blocks in [_condition.wait] with nobody left to wake it never
    returns, and neither does the join. *)
Fixpoint run_to_exit (fuel : nat) (w : worker) (s : pool) : option pool :=
  match w with
  | Exited => Some s
  | _ =>
      match fuel with
      | O => None
      | S fuel' =>
          match _working_task w s with
          | Some (w', s') => run_to_exit fuel' w' s'
          | None => None
          end
      end
  end.

Definition join_fuel (s : pool) : nat := (2 * length (_tasks s) + 2)%nat.

(** [_threads[i].join()]; [None] also when [i] is out of range or the handle
    is not joinable ([std::system_error]). *)
Definition join (i : nat) (s : pool) : option pool :=
  match _threads s !! i with
  | Some (Joinable w) =>
      match run_to_exit (join_fuel s) w s with
      | Some s' => Some (with_threads (<[i := NotJoinable]> (_threads s')) s')
      | None => None
      end
  | _ => None
  end.

(** [_threads.emplace_back(_working_task)] *)
Definition spawn (s : pool) : pool :=
  with_threads (_threads s ++ [Joinable Waiting]) s.

(** ** Constructor *)

Definition ThreadPool (num_threads : Z) : pool :=
  Nat.iter (Z.to_nat num_threads) spawn
    {| _threads := []; _tasks := []; _num_threads := num_threads;
       _num_started := 0; _num_killed := 0; _num_finished := 0;
       _num_detached := 0; _stop := false; detached_threads := [] |}.

(** ** Member functions *)

Definition Invoke (function : Task) (s : pool) : pool :=
  if negb (_stop s) then
    let s1 := with_tasks (_tasks s ++ [function]) s in
    with_started (size_incr (_num_started s1)) s1
  else s.

Definition IsNoPending (s : pool) : bool :=
  match _tasks s with [] => true | _ => false end.

Definition PendingTaskNum (s : pool) : Z := Z.of_nat (length (_tasks s)).

(** [while (!_tasks.empty()) { _tasks.pop(); _num_killed++; }] *)
Fixpoint pop_and_kill (q : list Task) (s : pool) : pool :=
  match q with
  | [] => s
  | _ :: q' => pop_and_kill q' (with_killed (size_incr (_num_killed s)) (with_tasks q' s))
  end.

Definition KillAllPending (s : pool) : pool := pop_and_kill (_tasks s) s.

(** [std::condition_variable::wait(lock, pred)] is
    [while (!pred()) wait(lock);]: the predicate is evaluated on the state
    found at the call and then on the state found at each later wake-up, and
    the wait ends at the first state that satisfies it.  The wake-ups (a
    notification of the condition variable, or a spurious one) are given from
    outside.  [None]: still blocked after the listed wake-ups. *)
Fixpoint cv_wait (pred : pool -> bool) (s : pool) (wakeups : list pool) : option pool :=
  if pred s then Some s
  else
    match wakeups with
    | [] => None
    | s' :: later => cv_wait pred s' later
    end.

(** The two predicates of [WaitTill] *)
Definition WaitTill_pred (num_tasks : Z) (_ignoreStopSignal : bool) (s : pool) : bool :=
  if negb _ignoreStopSignal then
    (num_tasks <=? size_add (_num_finished s) (_num_killed s)) || _stop s
  else
    (num_tasks <=? size_add (_num_finished s) (_num_killed s)).

Definition WaitTill (num_tasks : Z) (_ignoreStopSignal : bool)
    (s : pool) (wakeups : list pool) : option bool :=
  match cv_wait (WaitTill_pred num_tasks _ignoreStopSignal) s wakeups with
  | Some s' => Some (num_tasks <=? _num_finished s')
  | None => None
  end.

Definition WaitTillAll (_ignoreStopSignal : bool) (s : pool) (wakeups : list pool)
    : option bool :=
  WaitTill (size_add (_num_started s) (_num_detached s)) _ignoreStopSignal s wakeups.

(** Returns the state in which the queue was seen empty. *)
Definition WaitTillNoPending (s : pool) (wakeups : list pool) : option pool :=
  cv_wait IsNoPending s wakeups.

(** A loop over the handle vector, by index; it stops at the first body that
    does not return. *)
Fixpoint for_each (body : nat -> pool -> option pool) (idx : list nat) (s : pool)
    : option pool :=
  match idx with
  | [] => Some s
  | i :: rest =>
      match body i s with
      | Some s' => for_each body rest s'
      | None => None
      end
  end.

(** [thread.detach(); _num_detached++;] [detach] on a handle that is not
    joinable throws, which in a [noexcept] function ends the process. *)
Definition Detach_body (i : nat) (s : pool) : option pool :=
  match _threads s !! i with
  | Some (Joinable w) =>
      let s1 := with_detached_threads (detached_threads s ++ [w])
                  (with_threads (<[i := NotJoinable]> (_threads s)) s) in
      Some (with_detached (size_incr (_num_detached s1)) s1)
  | _ => None
  end.

Definition Detach (s : pool) : option pool :=
  let s1 := with_stop true s in
  for_each Detach_body (seq 0 (length (_threads s1))) s1.

Definition Stop (s : pool) : pool :=
  let s1 := with_stop true s in
  pop_and_kill (_tasks s1) s1.

(** [if (_threads[i].joinable()) _threads[i].join();] *)
Definition join_if_joinable (i : nat) (s : pool) : option pool :=
  match _threads s !! i with
  | Some t => if joinable t then join i s else Some s
  | None => None
  end.

(** [std::vector<std::thread>::resize]: the handles past the new size are
    destroyed, and destroying a joinable [std::thread] ends the process; a
    larger size appends default-constructed handles. *)
Definition resize (n : nat) (v : list thread) : option (list thread) :=
  if forallb (fun t => negb (joinable t)) (drop n v)
  then Some (take n v ++ replicate (n - length v)%nat NotJoinable)
  else None.

(** In the shrinking branch the lock is released for the joins
    ([lock.unlock()] ... [lock.lock()]), after [_stop] was set and every
    worker notified.  [window] lists the steps that the other workers take
    in the meantime: a worker woken while idle finds [_stop] set and the
    queue empty and returns, a running one counts its task finished.  Such
    steps and those of the joined workers touch different workers and only
    increment [_num_finished], so their order does not matter; they are run
    before the joins.  The growing branch holds the lock throughout. *)
Definition ResetThreadNum (num_threads : Z) (window : list worker_id) (s : pool)
    : option pool :=
  if num_threads <? _num_threads s then
    let s1 := with_stop true s in
    let s2 := pop_and_kill (_tasks s1) s1 in
    let s2 := run_workers window s2 in
    match for_each join_if_joinable
            (seq (Z.to_nat num_threads) (Z.to_nat (_num_threads s2 - num_threads))) s2 with
    | Some s3 =>
        match resize (Z.to_nat num_threads) (_threads s3) with
        | Some v => Some (with_stop false (with_num_threads num_threads (with_threads v s3)))
        | None => None
        end
    | None => None
    end
  else if _num_threads s <? num_threads then
    let s1 := with_num_threads num_threads s in
    Some (Nat.iter (Z.to_nat (num_threads - Z.of_nat (length (_threads s1)))) spawn s1)
  else Some s.

Definition StopForced (window : list worker_id) (s : pool) : option pool :=
  let s1 := with_stop true s in
  let s2 := pop_and_kill (_tasks s1) s1 in
  ResetThreadNum 0 window s2.

Definition Valid (s : pool) : bool := negb (_stop s).
Definition ThreadNum (s : pool) : Z := _num_threads s.
Definition StartedNum (s : pool) : Z := _num_started s.
Definition FinishedNum (s : pool) : Z := _num_finished s.
Definition KilledNum (s : pool) : Z := _num_killed s.
Definition DetachedNum (s : pool) : Z := _num_detached s.

(** [if (thread.joinable()) thread.join(); _num_killed++;] *)
Definition Destroy_body (i : nat) (s : pool) : option pool :=
  match join_if_joinable i s with
  | Some s' => Some (with_killed (size_incr (_num_killed s')) s')
  | None => None
  end.

(** The destructor is [Destroy()]. *)
Definition Destroy (s : pool) : option pool :=
  let s1 := with_stop true s in
  for_each Destroy_body (seq 0 (length (_threads s1))) s1.

(** ** Executions

    An execution is a sequence of member-function calls and worker steps, each
    run as a whole on the shared record: the calls are not interleaved with
    one another, and a worker steps between two calls or in the window that
    [ResetThreadNum] and [StopForced] leave open for their joins.  In
    particular the unlocked test of [_stop] and the unlocked
    [_num_started++] of [Invoke] happen together with its enqueue, and no
    other thread runs while [Destroy] joins a worker. *)
Inductive action : Type :=
  | AInvoke (function : Task)
  | AKillAllPending
  | ADetach
  | AStop
  | AStopForced (window : list worker_id)
  | AResetThreadNum (num_threads : Z) (window : list worker_id)
  | AWorker (id : worker_id)
  | ADestroy.

Definition exec (a : action) (s : pool) : option pool :=
  match a with
  | AInvoke function => Some (Invoke function s)
  | AKillAllPending => Some (KillAllPending s)
  | ADetach => Detach s
  | AStop => Some (Stop s)
  | AStopForced window => StopForced window s
  | AResetThreadNum num_threads window => ResetThreadNum num_threads window s
  | AWorker id => worker_step id s
  | ADestroy => Destroy s
  end.

Fixpoint run (acts : list action) (s : pool) : option pool :=
  match acts with
  | [] => Some s
  | a :: rest =>
      match exec a s with
      | Some s' => run rest s'
      | None => None
      end
  end.

Definition is_Destroy (a : action) : bool :=
  match a with ADestroy => true | _ => false end.

(** ** Class invariant: the counters are [size_t] values and [_num_threads]
    is the size of the handle vector. *)
Definition pool_ok (s : pool) : Prop :=
  is_size (_num_threads s) /\ is_size (_num_started s) /\ is_size (_num_killed s) /\
  is_size (_num_finished s) /\ is_size (_num_detached s) /\
  Z.of_nat (length (_threads s)) = _num_threads s.

(** Tasks taken from the queue and not yet counted finished. *)
Definition running (w : worker) : Z :=
  match w with Running _ => 1 | _ => 0 end.

Definition running_owned (t : thread) : Z :=
  match t with Joinable w => running w | NotJoinable => 0 end.

Fixpoint sumZ {A : Type} (f : A -> Z) (l : list A) : Z :=
  match l with
  | [] => 0
  | x :: l' => f x + sumZ f l'
  end.

Definition in_flight (s : pool) : Z :=
  sumZ running_owned (_threads s) + sumZ running (detached_threads s).

(** Every task counted started is in exactly one place: counted finished,
    counted killed, pending in the queue, or being run by a worker; and
    [_num_started] has not wrapped (it is at most [bound], the number of
    submissions so far). *)
Definition balanced (bound : Z) (s : pool) : Prop :=
  0 <= _num_finished s /\ 0 <= _num_killed s /\
  _num_finished s + _num_killed s + PendingTaskNum s + in_flight s = _num_started s /\
  _num_started s <= bound.

(** The arguments of a call are [size_t] values. *)
Definition well_typed (a : action) : Prop :=
  match a with AResetThreadNum num_threads _ => is_size num_threads | _ => True end.

(** The calls to [Invoke] in an execution. *)
Definition submitted (a : action) : Z :=
  match a with AInvoke _ => 1 | _ => 0 end.

Definition submissions (acts : list action) : Z := sumZ submitted acts.

(** ** Descriptions, to compare the code with *)

(** The condition [WaitTill] is described as waiting for: enough tasks
    finished or killed, or (unless the stop signal is ignored) the pool
    stopped. *)
Definition wake_condition (num_tasks : Z) (_ignoreStopSignal : bool) (s : pool) : Prop :=
  num_tasks <= size_add (_num_finished s) (_num_killed s) \/
  (_ignoreStopSignal = false /\ _stop s = true).

(** [WaitTillAll] as described: with the target fixed at the call to the
    tasks submitted so far plus the detached allowance, wait until that many
    have finished or been killed (or the pool is stopped, unless that is
    ignored), and report whether that many finished. *)
Fixpoint wait_for_target (target : Z) (_ignoreStopSignal : bool)
    (s : pool) (wakeups : list pool) : option bool :=
  if (target <=? size_add (_num_finished s) (_num_killed s))
     || (negb _ignoreStopSignal && _stop s)
  then Some (target <=? _num_finished s)
  else
    match wakeups with
    | [] => None
    | s' :: later => wait_for_target target _ignoreStopSignal s' later
    end.

Definition WaitTillAll_described (_ignoreStopSignal : bool)
    (s : pool) (wakeups : list pool) : option bool :=
  wait_for_target (size_add (_num_started s) (_num_detached s))
    _ignoreStopSignal s wakeups.

End Pool.

Arguments worker : clear implicits.
Arguments thread : clear implicits.
Arguments pool : clear implicits.
Arguments action : clear implicits.

(** ** Observations on handles, calls and executions *)

Section Observers.

Context {Task : Type}.

(** The threads of execution that a handle vector owns, in order. *)
Definition owned_workers (v : list (thread Task)) : list (worker Task) :=
  flat_map (fun t => match t with Joinable w => [w] | NotJoinable => [] end) v.

(** A handle whose thread has not returned from the worker body. *)
Definition live (t : thread Task) : bool :=
  match t with
  | Joinable Waiting | Joinable (Running _) => true
  | _ => false
  end.

(** The stop flag that a call leaves, read off the assignments to [_stop]:
    [Detach], [Stop] and [Destroy] set it; the shrinking branch of
    [ResetThreadNum] (also reached from [StopForced]) sets it and then clears
    it; nothing else writes it. *)
Definition stop_after (a : action Task) (s : pool Task) : bool :=
  match a with
  | AInvoke _ | AKillAllPending | AWorker _ => _stop s
  | ADetach | AStop | ADestroy => true
  | AStopForced _ => negb (0 <? _num_threads s)
  | AResetThreadNum num_threads _ =>
      if num_threads <? _num_threads s then false else _stop s
  end.

(** The thread count that a call leaves: the argument of [ResetThreadNum],
    [0] after [StopForced], unchanged otherwise. *)
Definition size_after (a : action Task) (n : Z) : Z :=
  match a with
  | AResetThreadNum num_threads _ => num_threads
  | AStopForced _ => 0
  | _ => n
  end.

Definition last_size (n : Z) (acts : list (action Task)) : Z :=
  fold_left (fun n a => size_after a n) acts n.

(** [_condition_finished.notify_all()] is called in one place, by a worker
    right after its [_num_finished++] and under the same lock: a step or
    call notifies the waiters exactly when it counts a task finished. *)
Definition notified (s s' : pool Task) : bool :=
  negb (_num_finished s' =? _num_finished s).

(** The states in which a thread blocked in [_condition_finished.wait] is
    woken in the course of an execution (no spurious wake-up). *)
Fixpoint wakeups_during (acts : list (action Task)) (s : pool Task)
    : list (pool Task) :=
  match acts with
  | [] => []
  | a :: rest =>
      match exec a s with
      | Some s' =>
          (if notified s s' then [s'] else []) ++ wakeups_during rest s'
      | None => []
      end
  end.

(** Since a state with [finished0] tasks counted finished and [in_flight0]
    tasks being run: the pool is stopped, its queue is empty, and every task
    that was being run is counted finished or still being run. *)
Definition drained_since (finished0 in_flight0 : Z) (s : pool Task) : Prop :=
  _stop s = true /\ _tasks s = [] /\
  exists m : nat,
    _num_finished s = Nat.iter m size_incr finished0 /\
    Z.of_nat m + in_flight s = in_flight0.

(** The calls that run no worker. *)
Definition quiet (a : action Task) : bool :=
  match a with
  | AInvoke _ | AKillAllPending | ADetach | AStop => true
  | _ => false
  end.

Definition is_Invoke (a : action Task) : bool :=
  match a with AInvoke _ => true | _ => false end.

Definition is_Detach (a : action Task) : bool :=
  match a with ADetach => true | _ => false end.

Definition is_Worker (a : action Task) : bool :=
  match a with AWorker _ => true | _ => false end.

(** The calls that join workers, and so wait for running tasks. *)
Definition joins_workers (a : action Task) : bool :=
  match a with AStopForced _ | AResetThreadNum _ _ | ADestroy => true | _ => false end.

(** The calls that pop tasks off the queue unrun, or count handles killed. *)
Definition kills (a : action Task) : bool :=
  match a with
  | AKillAllPending | AStop | AStopForced _ | AResetThreadNum _ _ | ADestroy => true
  | _ => false
  end.

End Observers.

(** ** Concrete pools, used to instantiate the theorems below *)

(** Two workers, one of them mid-task, two tasks pending. *)
Definition busy_pool : pool nat :=
  {| _threads := [Joinable (Running 7%nat); Joinable Waiting];
     _tasks := [8%nat; 9%nat];
     _num_threads := 2; _num_started := 5; _num_killed := 1;
     _num_finished := 1; _num_detached := 0; _stop := false;
     detached_threads := [] |}.

(** A pool that never had a worker. *)
Definition empty_pool : pool nat := ThreadPool 0.

(** An execution that submits, stops, shrinks, submits again and detaches. *)
Definition sample_execution : list (action nat) :=
  [AInvoke 7%nat; AInvoke 8%nat; AWorker (Owned 0); AInvoke 9%nat; AStop;
   AWorker (Owned 0); AResetThreadNum 1 []; AInvoke 10%nat; ADetach;
   AWorker (Released 0)].

Definition sample_outcome : pool nat :=
  {| _threads := [NotJoinable];
     _tasks := [];
     _num_threads := 1; _num_started := 4; _num_killed := 2;
     _num_finished := 1; _num_detached := 1; _stop := true;
     detached_threads := [Running 10%nat] |}.

(** What [ResetThreadNum(1)] leaves of a new pool of two idle workers when
    the kept worker is woken while the lock is released: one handle, whose
    thread has returned. *)
Definition shrunk_pool : pool nat :=
  {| _threads := [Joinable Exited];
     _tasks := [];
     _num_threads := 1; _num_started := 0; _num_killed := 0;
     _num_finished := 0; _num_detached := 0; _stop := false;
     detached_threads := [] |}.

(** [2^64 - 1] submissions to a pool without workers, all killed, then one
    more submission. *)
Definition wrapping_execution : list (action nat) :=
  repeat (AInvoke 0%nat) (Z.to_nat (size_modulus - 1)) ++
  [AKillAllPending; AInvoke 0%nat].

(** * Properties *)

(** ** [size_t] *)

Lemma size_add_is_size a b : is_size (size_add a b).
Proof.
  unfold is_size, size_add, size_modulus.
  apply Z.mod_pos_bound. lia.
Qed.

Lemma size_incr_is_size a : is_size (size_incr a).
Proof. apply size_add_is_size. Qed.

Lemma size_add_small a b :
  0 <= a + b < size_modulus -> size_add a b = a + b.
Proof. unfold size_add. intros H. apply Z.mod_small. exact H. Qed.

Lemma iter_size_incr n a :
  is_size a -> Nat.iter n size_incr a = size_add a (Z.of_nat n).
Proof.
  intros Ha. induction n as [|n IH].
  - simpl. rewrite size_add_small; unfold is_size in Ha; lia.
  - rewrite Nat.iter_succ, IH. unfold size_incr, size_add, size_modulus.
    rewrite Z.add_mod_idemp_l by lia. f_equal. lia.
Qed.

Lemma iter_size_incr_small n a :
  0 <= a -> a + Z.of_nat n < size_modulus ->
  Nat.iter n size_incr a = a + Z.of_nat n.
Proof.
  intros H0 H1. rewrite iter_size_incr by (unfold is_size; lia).
  apply size_add_small. lia.
Qed.

Section PoolProperties.

Context {Task : Type}.
Implicit Types (s : pool Task) (w : worker Task) (q : list Task).

(** ** The kill loop *)

Lemma pop_and_kill_eq q s :
  pop_and_kill q s =
    with_killed (Nat.iter (length q) size_incr (_num_killed s))
      (with_tasks (match q with [] => _tasks s | _ => [] end) s).
Proof.
  revert s. induction q as [|t q IH]; intros s.
  - destruct s; reflexivity.
  - cbn [pop_and_kill length]. rewrite IH, Nat.iter_succ_r.
    destruct q; reflexivity.
Qed.

Lemma KillAllPending_eq s :
  KillAllPending s =
    with_killed (Nat.iter (length (_tasks s)) size_incr (_num_killed s))
      (with_tasks [] s).
Proof.
  unfold KillAllPending. rewrite pop_and_kill_eq.
  destruct s as [v q]; destruct q; reflexivity.
Qed.

Lemma Stop_eq s :
  Stop s =
    with_killed (Nat.iter (length (_tasks s)) size_incr (_num_killed s))
      (with_tasks [] (with_stop true s)).
Proof.
  unfold Stop. rewrite pop_and_kill_eq.
  destruct s as [v q]; destruct q; reflexivity.
Qed.

(** A stopped pool with an empty queue is a fixed point of [Stop]. *)
Lemma Stop_stopped_empty s :
  _stop s = true -> _tasks s = [] -> Stop s = s.
Proof.
  intros Hs Hq. rewrite Stop_eq. destruct s; simpl in *; subst. reflexivity.
Qed.

Lemma worker_step_stopped_empty id s s' :
  worker_step id s = Some s' ->
  _stop s = true -> _tasks s = [] -> _stop s' = true /\ _tasks s' = [].
Proof.
  unfold worker_step, _working_task. intros H Hs Hq.
  destruct id as [i|j].
  - destruct (_threads s !! i) as [[[| |]|]|]; rewrite ?Hq, ?Hs in H;
      inversion H; subst; simpl; auto.
  - destruct (detached_threads s !! j) as [[| |]|]; rewrite ?Hq, ?Hs in H;
      inversion H; subst; simpl; auto.
Qed.

Lemma run_workers_stopped_empty sched s :
  _stop s = true -> _tasks s = [] ->
  _stop (run_workers sched s) = true /\ _tasks (run_workers sched s) = [].
Proof.
  revert s. induction sched as [|id sched IH]; intros s Hs Hq; simpl; auto.
  destruct (worker_step id s) as [s'|] eqn:E; auto.
  destruct (worker_step_stopped_empty _ _ _ E Hs Hq). auto.
Qed.

(** ** Waiting *)

Lemma WaitTill_pred_spec n ig s :
  WaitTill_pred n ig s = true <-> wake_condition n ig s.
Proof.
  unfold WaitTill_pred, wake_condition.
  destruct ig; simpl; rewrite ?orb_true_iff, Z.leb_le; intuition congruence.
Qed.

Lemma WaitTill_pred_false n ig s :
  WaitTill_pred n ig s = false <-> ~ wake_condition n ig s.
Proof.
  rewrite <- WaitTill_pred_spec. destruct (WaitTill_pred n ig s); intuition congruence.
Qed.

Lemma cv_wait_Some pred s wakeups s' :
  cv_wait pred s wakeups = Some s' <->
  exists before after,
    s :: wakeups = before ++ s' :: after /\
    Forall (fun x => pred x = false) before /\ pred s' = true.
Proof.
  revert s. induction wakeups as [|x wakeups IH]; intros s; simpl.
  - destruct (pred s) eqn:E; split.
    + intros [= <-]. exists [], []. auto.
    + intros (before & after & Heq & Hb & Hp).
      destruct before as [|y before]; simplify_eq/=; [done|].
      inversion Hb; congruence.
    + done.
    + intros (before & after & Heq & Hb & Hp).
      destruct before as [|y before]; simplify_eq/=; [congruence|].
      destruct before; done.
  - destruct (pred s) eqn:E; split.
    + intros [= <-]. exists [], (x :: wakeups). auto.
    + intros (before & after & Heq & Hb & Hp).
      destruct before as [|y before]; simplify_eq/=; [done|].
      inversion Hb; congruence.
    + intros H. apply IH in H as (before & after & Heq & Hb & Hp).
      exists (s :: before), after. rewrite Heq. auto.
    + intros (before & after & Heq & Hb & Hp).
      destruct before as [|y before]; simplify_eq/=; [congruence|].
      apply IH. inversion Hb; eauto.
Qed.

Lemma cv_wait_None pred s wakeups :
  cv_wait pred s wakeups = None <-> Forall (fun x => pred x = false) (s :: wakeups).
Proof.
  revert s. induction wakeups as [|x wakeups IH]; intros s; simpl.
  - destruct (pred s) eqn:E; split; try done.
    + intros H. inversion H; congruence.
    + auto.
  - destruct (pred s) eqn:E; split; try done.
    + intros H. inversion H; congruence.
    + intros H. constructor; [done | by apply IH].
    + intros H. inversion H; by apply IH.
Qed.

(** ** Joining a worker of a stopped pool *)

(** With the stop flag set the joined worker never blocks: it counts the task
    it is running, runs and counts every task still queued, and returns. *)
Lemma run_to_exit_stopped fuel w s :
  _stop s = true ->
  (match w with
   | Exited => 0
   | Waiting => 2 * length (_tasks s) + 1
   | Running _ => 2 * length (_tasks s) + 2
   end <= fuel)%nat ->
  run_to_exit fuel w s =
    Some (match w with
          | Exited => s
          | _ => with_finished
                   (Nat.iter (Z.to_nat (running w) + length (_tasks s)) size_incr
                      (_num_finished s))
                   (with_tasks [] s)
          end).
Proof.
  revert w s. induction fuel as [|fuel IH]; intros w s Hs Hfuel.
  - destruct w; simpl in *; try lia. reflexivity.
  - destruct w as [|t|]; cbn [run_to_exit _working_task].
    + destruct s as [v q nt st k f d b dt]; simpl in *; subst b.
      destruct q as [|t q]; simpl in *.
      * destruct fuel; reflexivity.
      * rewrite IH by (simpl; auto; lia). simpl.
        rewrite <- Nat.iter_succ. do 3 f_equal.
    + rewrite IH by (simpl; auto; lia).
      destruct s as [v q nt st k f d b dt]; simpl in *.
      rewrite <- Nat.iter_succ_r. do 3 f_equal.
    + reflexivity.
Qed.

(** The effect of [if (_threads[i].joinable()) _threads[i].join();] on a
    stopped pool: the handle ends up not joinable, and what the worker counted
    finished is what it was running plus what it took from the queue. *)
Lemma join_if_joinable_stopped i s t :
  _stop s = true -> _threads s !! i = Some t ->
  exists (n : nat) q',
    join_if_joinable i s =
      Some (with_threads (<[i := NotJoinable]> (_threads s))
              (with_finished (Nat.iter n size_incr (_num_finished s))
                 (with_tasks q' s))) /\
    (n + length q' = Z.to_nat (running_owned t) + length (_tasks s))%nat /\
    (q' = [] \/ q' = _tasks s).
Proof.
  intros Hs Hi. unfold join_if_joinable, join. rewrite Hi.
  destruct t as [w|]; simpl.
  - destruct w as [|task|].
    + exists (length (_tasks s)), [].
      rewrite run_to_exit_stopped; [|done|unfold join_fuel; lia].
      split; [reflexivity|]. split; [simpl; lia|by left].
    + exists (S (length (_tasks s))), [].
      rewrite run_to_exit_stopped; [|done|unfold join_fuel; lia].
      split; [reflexivity|]. split; [simpl; lia|by left].
    + exists 0%nat, (_tasks s).
      rewrite run_to_exit_stopped; [|done|lia].
      split; [destruct s; reflexivity|]. split; [reflexivity|by right].
  - exists 0%nat, (_tasks s). split; [|split; [reflexivity|by right]]. simpl.
    rewrite list_insert_id by done. destruct s; reflexivity.
Qed.

(** ** Loops over the handle vector *)

Lemma for_each_seq_total (body : nat -> pool Task -> option (pool Task))
    (I : nat -> pool Task -> Prop) (k m : nat) s :
  I k s ->
  (forall i s1, (k <= i < k + m)%nat -> I i s1 ->
     exists s2, body i s1 = Some s2 /\ I (S i) s2) ->
  exists s', for_each body (seq k m) s = Some s' /\ I (k + m)%nat s'.
Proof.
  revert k s. induction m as [|m IH]; intros k s HI Hstep; simpl.
  - exists s. rewrite Nat.add_0_r. auto.
  - destruct (Hstep k s) as (s2 & -> & HI2); [lia|done|].
    destruct (IH (S k) s2) as (s' & Hs' & HI'); [done| |].
    + intros i s1 Hi. apply Hstep. lia.
    + exists s'. split; [done|]. by replace (k + S m)%nat with (S k + m)%nat by lia.
Qed.

Lemma for_each_preserves (body : nat -> pool Task -> option (pool Task))
    (P : pool Task -> Prop) (idx : list nat) s s' :
  (forall i s1 s2, P s1 -> body i s1 = Some s2 -> P s2) ->
  P s -> for_each body idx s = Some s' -> P s'.
Proof.
  intros Hstep. revert s. induction idx as [|i idx IH]; intros s HP; simpl.
  - intros [= <-]. done.
  - destruct (body i s) as [s2|] eqn:E; [|done]. eauto.
Qed.

(** ** Sums over the workers *)

Lemma sumZ_app {A} (f : A -> Z) (l1 l2 : list A) :
  sumZ f (l1 ++ l2) = sumZ f l1 + sumZ f l2.
Proof. induction l1 as [|x l1 IH]; simpl; lia. Qed.

Lemma sumZ_insert {A} (f : A -> Z) (l : list A) (i : nat) (x y : A) :
  l !! i = Some x -> sumZ f (<[i := y]> l) = sumZ f l - f x + f y.
Proof.
  revert i. induction l as [|z l IH]; intros [|i] H; simplify_eq/=; [lia|].
  rewrite (IH i) by done. lia.
Qed.

Lemma sumZ_zero {A} (f : A -> Z) (l : list A) :
  Forall (fun x => f x = 0) l -> sumZ f l = 0.
Proof. induction 1; simpl; lia. Qed.

Lemma sumZ_nonneg {A} (f : A -> Z) (l : list A) :
  (forall x, 0 <= f x) -> 0 <= sumZ f l.
Proof. intros H. induction l as [|x l IH]; simpl; [lia|]. specialize (H x). lia. Qed.

Lemma running_nonneg w : 0 <= running w.
Proof. destruct w; simpl; lia. Qed.

Lemma running_owned_nonneg (t : thread Task) : 0 <= running_owned t.
Proof. destruct t; simpl; [apply running_nonneg|lia]. Qed.

Lemma in_flight_nonneg s : 0 <= in_flight s.
Proof.
  unfold in_flight.
  pose proof (sumZ_nonneg running_owned (_threads s) running_owned_nonneg).
  pose proof (sumZ_nonneg running (detached_threads s) running_nonneg).
  lia.
Qed.

(** ** Resizing *)

Lemma forallb_Forall {A} (f : A -> bool) (l : list A) :
  Forall (fun x => f x = true) l -> forallb f l = true.
Proof. induction 1 as [|x l Hx _ IH]; simpl; [reflexivity|]. by rewrite Hx, IH. Qed.

Lemma forallb_true_Forall {A} (f : A -> bool) (l : list A) :
  forallb f l = true -> Forall (fun x => f x = true) l.
Proof.
  induction l as [|x l IH]; simpl; [constructor|].
  intros [Hx Hl]%andb_true_iff. constructor; auto.
Qed.

Lemma iter_spawn n s :
  Nat.iter n spawn s = with_threads (_threads s ++ replicate n (Joinable Waiting)) s.
Proof.
  induction n as [|n IH].
  - simpl. rewrite app_nil_r. destruct s; reflexivity.
  - rewrite Nat.iter_succ, IH. unfold spawn, with_threads. simpl. f_equal.
    rewrite <- app_assoc. f_equal. symmetry. apply replicate_cons_app.
Qed.

Lemma iter_size_incr_is_size n a : is_size a -> is_size (Nat.iter n size_incr a).
Proof. intros Ha. destruct n; [done|]. rewrite Nat.iter_succ. apply size_incr_is_size. Qed.

(** What a worker step leaves alone. *)
Lemma worker_step_frame id s s' :
  worker_step id s = Some s' ->
  _stop s' = _stop s /\ _num_started s' = _num_started s /\
  _num_killed s' = _num_killed s /\ _num_detached s' = _num_detached s /\
  _num_threads s' = _num_threads s /\
  length (_threads s') = length (_threads s).
Proof.
  unfold worker_step, _working_task. intros H. destruct id as [i|j].
  - destruct (_threads s !! i) as [[[|t|]|]|]; try done;
      [destruct (_tasks s); [destruct (_stop s) eqn:E; [|done]|]|];
      simplify_eq; simpl; rewrite ?length_insert; repeat split; done.
  - destruct (detached_threads s !! j) as [[|t|]|]; try done;
      [destruct (_tasks s); [destruct (_stop s) eqn:E; [|done]|]|];
      simplify_eq; simpl; repeat split; done.
Qed.

Lemma run_workers_frame sched s :
  _stop (run_workers sched s) = _stop s /\
  _num_started (run_workers sched s) = _num_started s /\
  _num_killed (run_workers sched s) = _num_killed s /\
  _num_detached (run_workers sched s) = _num_detached s /\
  _num_threads (run_workers sched s) = _num_threads s /\
  length (_threads (run_workers sched s)) = length (_threads s).
Proof.
  revert s. induction sched as [|id sched IH]; intros s; simpl; [done|].
  destruct (worker_step id s) as [s'|] eqn:E; [|apply IH].
  destruct (worker_step_frame _ _ _ E) as (? & ? & ? & ? & ? & ?).
  destruct (IH s') as (? & ? & ? & ? & ? & ?).
  repeat split; congruence.
Qed.

(** The joins of the shrinking branch, on the stopped pool with its queue
    emptied: they return, and the handles past the new size can then be
    dropped. *)
Lemma join_dropped_workers (K M : nat) s :
  _stop s = true -> _tasks s = [] -> (K + M = length (_threads s))%nat ->
  exists (n : nat) v,
    for_each join_if_joinable (seq K M) s =
      Some (with_threads v (with_finished (Nat.iter n size_incr (_num_finished s)) s)) /\
    resize K v = Some (take K (_threads s)).
Proof.
  intros Hstop Hq Hlen.
  pose (I := fun (i : nat) (s1 : pool Task) =>
    exists (n : nat) v,
      s1 = with_threads v (with_finished (Nat.iter n size_incr (_num_finished s)) s) /\
      length v = length (_threads s) /\
      (forall j, (K <= j < i)%nat -> v !! j = Some NotJoinable) /\
      (forall j, (j < K)%nat -> v !! j = _threads s !! j)).
  destruct (for_each_seq_total join_if_joinable I K M s) as (s3 & Hs3 & HI).
  - exists 0%nat, (_threads s).
    split; [destruct s; reflexivity|]. split; [reflexivity|].
    split; [intros j Hj; lia|done].
  - intros i s1 Hi (n & v & -> & Hv & Hnj & Hkeep).
    destruct (lookup_lt_is_Some_2 v i) as [t Ht]; [lia|].
    destruct (join_if_joinable_stopped i
                (with_threads v (with_finished (Nat.iter n size_incr (_num_finished s)) s))
                t Hstop Ht) as (m & q' & Hj & _ & Hq').
    exists (with_threads (<[i := NotJoinable]> v)
              (with_finished (Nat.iter (m + n) size_incr (_num_finished s)) s)).
    split.
    + rewrite Hj. simpl in Hq'. rewrite Hq in Hq'.
      assert (q' = []) as -> by (by destruct Hq').
      simpl. rewrite Nat.iter_add. destruct s; simpl in *; subst; reflexivity.
    + exists (m + n)%nat, (<[i := NotJoinable]> v). split; [done|].
      split; [by rewrite length_insert|]. split.
      * intros j Hj'. destruct (decide (j = i)) as [->|Hne].
        -- apply list_lookup_insert_eq. lia.
        -- rewrite list_lookup_insert_ne by done. apply Hnj. lia.
      * intros j Hj'. rewrite list_lookup_insert_ne by lia. by apply Hkeep.
  - destruct HI as (n & v & -> & Hv & Hnj & Hkeep).
    exists n, v. split; [exact Hs3|].
    assert (Hdrop : Forall (fun t => negb (joinable t) = true) (drop K v)).
    { apply Forall_lookup. intros j t Ht. rewrite lookup_drop in Ht.
      rewrite Hnj in Ht; [by simplify_eq|].
      apply lookup_lt_Some in Ht. lia. }
    unfold resize. rewrite (forallb_Forall _ _ Hdrop).
    replace (K - length v)%nat with 0%nat by lia. simpl. rewrite app_nil_r.
    f_equal. apply list_eq. intros j. destruct (decide (j < K)%nat).
    + rewrite !lookup_take_lt by done. by apply Hkeep.
    + rewrite !lookup_take_ge by lia. done.
Qed.

(** The shrinking branch, in closed form: the pending tasks are killed, the
    other workers take the steps of the window, the handles past the new size
    are joined and dropped, and the stop flag ends up cleared. *)
Lemma ResetThreadNum_shrink (num_threads : Z) (window : list worker_id) s :
  0 <= num_threads < _num_threads s ->
  Z.of_nat (length (_threads s)) = _num_threads s ->
  let sw := run_workers window
              (with_killed (Nat.iter (length (_tasks s)) size_incr (_num_killed s))
                 (with_tasks [] (with_stop true s))) in
  exists n : nat,
    ResetThreadNum num_threads window s =
      Some (with_stop false (with_num_threads num_threads
              (with_threads (take (Z.to_nat num_threads) (_threads sw))
                 (with_finished (Nat.iter n size_incr (_num_finished sw)) sw)))).
Proof.
  intros Hk Hlen sw. unfold ResetThreadNum.
  destruct (Z.ltb_spec num_threads (_num_threads s)) as [_|]; [|lia].
  rewrite pop_and_kill_eq.
  set (s2 := with_killed _ _).
  assert (Hs2 : s2 = with_killed (Nat.iter (length (_tasks s)) size_incr (_num_killed s))
                       (with_tasks [] (with_stop true s))).
  { unfold s2. destruct s as [v q]; destruct q; reflexivity. }
  clearbody s2. subst s2. fold sw.
  destruct (run_workers_stopped_empty window
              (with_killed (Nat.iter (length (_tasks s)) size_incr (_num_killed s))
                 (with_tasks [] (with_stop true s))) eq_refl eq_refl) as [Hstop Hq].
  destruct (run_workers_frame window
              (with_killed (Nat.iter (length (_tasks s)) size_incr (_num_killed s))
                 (with_tasks [] (with_stop true s)))) as (_ & _ & _ & _ & Hnt & Hlw).
  fold sw in Hstop, Hq, Hnt, Hlw. simpl in Hnt, Hlw. clearbody sw.
  destruct (join_dropped_workers (Z.to_nat num_threads)
              (Z.to_nat (_num_threads sw - num_threads)) sw Hstop Hq)
    as (n & v & Hloop & Hres); [lia|].
  rewrite Hloop. cbn [_threads with_threads]. rewrite Hres.
  exists n. reflexivity.
Qed.

Lemma StopForced_eq (window : list worker_id) s :
  StopForced window s = ResetThreadNum 0 window (Stop s).
Proof. reflexivity. Qed.

(** ** The accounting invariant *)

Local Ltac bal_solve := simpl in *; repeat split; try done; lia.

Lemma sumZ_replicate_zero {A} (f : A -> Z) (n : nat) (x : A) :
  f x = 0 -> sumZ f (replicate n x) = 0.
Proof. intros H. induction n as [|n IH]; simpl; lia. Qed.

Lemma sumZ_lookup_le {A} (f : A -> Z) (l : list A) (i : nat) (x : A) :
  (forall y, 0 <= f y) -> l !! i = Some x -> f x <= sumZ f l.
Proof.
  intros Hf. revert i. induction l as [|z l IH]; intros [|i] H; simplify_eq/=.
  - pose proof (sumZ_nonneg f l Hf). lia.
  - specialize (IH i H). specialize (Hf z). lia.
Qed.

Lemma balanced_weaken B B' s : balanced B s -> B <= B' -> balanced B' s.
Proof. unfold balanced. intros (? & ? & ? & ?) ?. repeat split; try done. lia. Qed.

Lemma balanced_Invoke B (function : Task) s :
  B + 1 < size_modulus -> balanced B s -> balanced (B + 1) (Invoke function s).
Proof.
  intros HB Hbal. unfold Invoke. destruct (_stop s); simpl.
  - eapply balanced_weaken; [exact Hbal|lia].
  - destruct Hbal as (Hf & Hk & Heq & Hb).
    pose proof (in_flight_nonneg s) as Hfl.
    unfold balanced, PendingTaskNum, in_flight in *. simpl.
    rewrite length_app. simpl. unfold size_incr.
    rewrite size_add_small by lia. bal_solve.
Qed.

Lemma balanced_pop_and_kill B s :
  B < size_modulus -> balanced B s -> balanced B (pop_and_kill (_tasks s) s).
Proof.
  intros HB (Hf & Hk & Heq & Hb). rewrite pop_and_kill_eq.
  pose proof (in_flight_nonneg s) as Hfl.
  unfold balanced, PendingTaskNum, in_flight in *. simpl.
  rewrite iter_size_incr_small by lia.
  replace (length (match _tasks s with [] => _tasks s | _ :: _ => [] end)) with 0%nat
    by (destruct (_tasks s); reflexivity).
  bal_solve.
Qed.

Lemma balanced_worker_step B id s s' :
  B < size_modulus -> balanced B s -> worker_step id s = Some s' -> balanced B s'.
Proof.
  intros HB (Hf & Hk & Heq & Hb) Hstep.
  unfold balanced, PendingTaskNum, in_flight in *.
  pose proof (sumZ_nonneg running_owned (_threads s) running_owned_nonneg) as Ho.
  pose proof (sumZ_nonneg running (detached_threads s) running_nonneg) as Hd.
  unfold worker_step, _working_task in Hstep. destruct id as [i|j].
  - destruct (_threads s !! i) as [[w|]|] eqn:Hi; try done.
    pose proof (sumZ_lookup_le running_owned _ _ _ running_owned_nonneg Hi) as Hle.
    destruct w as [|t|]; try done.
    + destruct (_tasks s) as [|t q] eqn:Hq.
      * destruct (_stop s); [|done]. simplify_eq. simpl.
        rewrite (sumZ_insert _ _ _ _ _ Hi), Hq. simpl. bal_solve.
      * simplify_eq. simpl. rewrite (sumZ_insert _ _ _ _ _ Hi). simpl in *.
        bal_solve.
    + simplify_eq. simpl in *. rewrite (sumZ_insert _ _ _ _ _ Hi). simpl.
      unfold size_incr. rewrite size_add_small by lia.
      bal_solve.
  - destruct (detached_threads s !! j) as [w|] eqn:Hj; try done.
    pose proof (sumZ_lookup_le running _ _ _ running_nonneg Hj) as Hle.
    destruct w as [|t|]; try done.
    + destruct (_tasks s) as [|t q] eqn:Hq.
      * destruct (_stop s); [|done]. simplify_eq. simpl.
        rewrite (sumZ_insert _ _ _ _ _ Hj), Hq. simpl. bal_solve.
      * simplify_eq. simpl. rewrite (sumZ_insert _ _ _ _ _ Hj). simpl in *.
        bal_solve.
    + simplify_eq. simpl in *. rewrite (sumZ_insert _ _ _ _ _ Hj). simpl.
      unfold size_incr. rewrite size_add_small by lia.
      bal_solve.
Qed.

Lemma balanced_Detach B s s' :
  balanced B s -> Detach s = Some s' -> balanced B s'.
Proof.
  intros Hbal. unfold Detach.
  apply for_each_preserves; [|exact Hbal].
  clear. intros i s1 s2 (Hf & Hk & Heq & Hb) Hbody.
  unfold Detach_body in Hbody.
  destruct (_threads s1 !! i) as [[w|]|] eqn:Hi; try done. simplify_eq.
  unfold balanced, PendingTaskNum, in_flight in *. simpl.
  rewrite (sumZ_insert _ _ _ _ _ Hi), sumZ_app. simpl.
  bal_solve.
Qed.

Lemma balanced_join_if_joinable B i s s' :
  B < size_modulus ->
  _stop s = true /\ balanced B s -> join_if_joinable i s = Some s' ->
  _stop s' = true /\ balanced B s'.
Proof.
  intros HB (Hs & Hf & Hk & Heq & Hb) Hjoin.
  destruct (_threads s !! i) as [t|] eqn:Hi;
    [|unfold join_if_joinable in Hjoin; by rewrite Hi in Hjoin].
  destruct (join_if_joinable_stopped i s t Hs Hi) as (n & q' & Hj & Hn & _).
  rewrite Hj in Hjoin. simplify_eq.
  pose proof (sumZ_lookup_le running_owned _ _ _ running_owned_nonneg Hi) as Hle.
  pose proof (running_owned_nonneg t) as Ht.
  pose proof (sumZ_nonneg running (detached_threads s) running_nonneg) as Hd.
  unfold balanced, PendingTaskNum, in_flight in *. simpl.
  rewrite (sumZ_insert _ _ _ _ _ Hi). simpl.
  rewrite iter_size_incr_small by lia.
  bal_solve.
Qed.

Lemma balanced_run_workers B sched s :
  B < size_modulus -> balanced B s -> balanced B (run_workers sched s).
Proof.
  intros HB. revert s. induction sched as [|id sched IH]; intros s Hbal; simpl; [done|].
  destruct (worker_step id s) as [s'|] eqn:E; [|by apply IH].
  apply IH. by eapply balanced_worker_step.
Qed.

Lemma balanced_ResetThreadNum B (num_threads : Z) (window : list worker_id) s s' :
  B < size_modulus ->
  balanced B s -> ResetThreadNum num_threads window s = Some s' -> balanced B s'.
Proof.
  intros HB Hbal. unfold ResetThreadNum.
  destruct (num_threads <? _num_threads s).
  - destruct (for_each _ _ _) as [s3|] eqn:Hloop; [|done].
    apply (for_each_preserves _ (fun s1 => _stop s1 = true /\ balanced B s1)) in Hloop.
    + destruct Hloop as (_ & Hf & Hk & Heq & Hb).
      unfold resize. destruct (forallb _ _) eqn:Hdrop; [|done].
      intros [= <-]. apply forallb_true_Forall in Hdrop.
      unfold balanced, PendingTaskNum, in_flight in *. simpl.
      rewrite sumZ_app, sumZ_replicate_zero by done.
      rewrite <- (take_drop (Z.to_nat num_threads) (_threads s3)) in Heq at 1.
      rewrite sumZ_app, (sumZ_zero running_owned (drop _ _)) in Heq.
      * bal_solve.
      * revert Hdrop. apply Forall_impl. by intros [w|].
    + intros i s1 s2. by apply balanced_join_if_joinable.
    + split.
      * destruct (run_workers_frame window
                    (pop_and_kill (_tasks (with_stop true s)) (with_stop true s)))
          as (-> & _). by rewrite pop_and_kill_eq.
      * apply balanced_run_workers; [done|].
        by apply (balanced_pop_and_kill B (with_stop true s)).
  - destruct (_num_threads s <? num_threads); intros [= <-]; [|done].
    rewrite iter_spawn. destruct Hbal as (Hf & Hk & Heq & Hb).
    unfold balanced, PendingTaskNum, in_flight in *. simpl.
    rewrite sumZ_app, sumZ_replicate_zero by done.
    bal_solve.
Qed.

Lemma balanced_exec B (a : action Task) s s' :
  is_Destroy a = false -> B + submitted a < size_modulus ->
  balanced B s -> exec a s = Some s' -> balanced (B + submitted a) s'.
Proof.
  intros Ha HB Hbal Hexec.
  destruct a as [function| | | | |num_threads|id|]; simpl in *; try done;
    rewrite ?Z.add_0_r in *.
  - simplify_eq. by apply balanced_Invoke.
  - simplify_eq. by apply balanced_pop_and_kill.
  - by eapply balanced_Detach.
  - simplify_eq. by apply (balanced_pop_and_kill B (with_stop true s)).
  - rewrite StopForced_eq in Hexec.
    eapply balanced_ResetThreadNum; [done| |exact Hexec].
    by apply (balanced_pop_and_kill B (with_stop true s)).
  - by eapply balanced_ResetThreadNum.
  - by eapply balanced_worker_step.
Qed.

Lemma submitted_nonneg (a : action Task) : 0 <= submitted a.
Proof. destruct a; simpl; lia. Qed.

Lemma balanced_run (acts : list (action Task)) :
  forall B s s',
    existsb is_Destroy acts = false ->
    B + submissions acts < size_modulus ->
    balanced B s -> run acts s = Some s' ->
    balanced (B + submissions acts) s'.
Proof.
  unfold submissions.
  induction acts as [|a acts IH]; intros B s s' Hnd HB Hbal Hrun; simpl in *.
  - simplify_eq. by rewrite Z.add_0_r.
  - apply orb_false_iff in Hnd as [Ha Hnd].
    destruct (exec a s) as [s1|] eqn:Hexec; [|done].
    pose proof (sumZ_nonneg submitted acts submitted_nonneg).
    pose proof (submitted_nonneg a).
    rewrite Z.add_assoc.
    apply (IH (B + submitted a) s1); [done|lia| |done].
    eapply balanced_exec; [exact Ha|lia|exact Hbal|exact Hexec].
Qed.

Lemma balanced_ThreadPool (num_threads : Z) :
  balanced 0 (ThreadPool (Task := Task) num_threads).
Proof.
  unfold ThreadPool. rewrite iter_spawn.
  unfold balanced, PendingTaskNum, in_flight. simpl.
  rewrite sumZ_replicate_zero by done. repeat split; lia.
Qed.

(** ** The class invariant is kept *)

Local Ltac ok_split :=
  unfold pool_ok; simpl;
  refine (conj _ (conj _ (conj _ (conj _ (conj _ _)))));
  try assumption; try apply size_incr_is_size;
  try (apply iter_size_incr_is_size; assumption).

Lemma pool_ok_ThreadPool (num_threads : Z) :
  is_size num_threads -> pool_ok (ThreadPool (Task := Task) num_threads).
Proof.
  intros Hn. unfold ThreadPool. rewrite iter_spawn.
  unfold pool_ok, is_size, size_modulus in *. simpl.
  rewrite length_replicate. lia.
Qed.

Lemma pool_ok_Invoke (function : Task) s : pool_ok s -> pool_ok (Invoke function s).
Proof.
  intros (Hnt & Hst & Hki & Hfi & Hde & Hlen). unfold Invoke.
  destruct (_stop s); simpl; [done|].
  ok_split.
Qed.

Lemma pool_ok_pop_and_kill s : pool_ok s -> pool_ok (pop_and_kill (_tasks s) s).
Proof.
  intros (Hnt & Hst & Hki & Hfi & Hde & Hlen). rewrite pop_and_kill_eq.
  ok_split.
Qed.

Lemma pool_ok_worker_step id s s' :
  pool_ok s -> worker_step id s = Some s' -> pool_ok s'.
Proof.
  intros (Hnt & Hst & Hki & Hfi & Hde & Hlen) Hstep.
  unfold worker_step, _working_task in Hstep. destruct id as [i|j].
  - destruct (_threads s !! i) as [[[|t|]|]|]; try done.
    + destruct (_tasks s); [destruct (_stop s); [|done]|]; simplify_eq;
        ok_split; by rewrite length_insert.
    + simplify_eq. ok_split. by rewrite length_insert.
  - destruct (detached_threads s !! j) as [[|t|]|]; try done.
    + destruct (_tasks s); [destruct (_stop s); [|done]|]; simplify_eq;
        ok_split.
    + simplify_eq. ok_split.
Qed.

Lemma pool_ok_Detach s s' : pool_ok s -> Detach s = Some s' -> pool_ok s'.
Proof.
  intros Hok. unfold Detach. apply for_each_preserves; [|exact Hok].
  clear. intros i s1 s2 (Hnt & Hst & Hki & Hfi & Hde & Hlen) Hbody.
  unfold Detach_body in Hbody.
  destruct (_threads s1 !! i) as [[w|]|]; try done. simplify_eq.
  ok_split. by rewrite length_insert.
Qed.

Lemma pool_ok_join_if_joinable i s s' :
  _stop s = true /\ pool_ok s -> join_if_joinable i s = Some s' ->
  _stop s' = true /\ pool_ok s'.
Proof.
  intros (Hs & Hnt & Hst & Hki & Hfi & Hde & Hlen) Hjoin.
  destruct (_threads s !! i) as [t|] eqn:Hi;
    [|unfold join_if_joinable in Hjoin; by rewrite Hi in Hjoin].
  destruct (join_if_joinable_stopped i s t Hs Hi) as (n & q' & Hj & _).
  rewrite Hj in Hjoin. simplify_eq.
  ok_split. by rewrite length_insert.
Qed.

Lemma pool_ok_run_workers sched s : pool_ok s -> pool_ok (run_workers sched s).
Proof.
  revert s. induction sched as [|id sched IH]; intros s Hok; simpl; [done|].
  destruct (worker_step id s) as [s'|] eqn:E; [|by apply IH].
  apply IH. by eapply pool_ok_worker_step.
Qed.

Lemma pool_ok_ResetThreadNum (num_threads : Z) (window : list worker_id) s s' :
  pool_ok s -> is_size num_threads ->
  ResetThreadNum num_threads window s = Some s' -> pool_ok s'.
Proof.
  intros Hok Hk. pose proof Hok as (Hnt & Hst & Hki & Hfi & Hde & Hlen).
  destruct (Z.lt_trichotomy num_threads (_num_threads s)) as [Hlt|[Heq|Hgt]].
  - destruct (ResetThreadNum_shrink num_threads window s) as (n & ->);
      [unfold is_size in Hk; lia|done|].
    intros [= <-].
    assert (Hsw : pool_ok (run_workers window
              (with_killed (Nat.iter (length (_tasks s)) size_incr (_num_killed s))
                 (with_tasks [] (with_stop true s))))).
    { apply pool_ok_run_workers.
      rewrite <- Stop_eq. by apply (pool_ok_pop_and_kill (with_stop true s)). }
    destruct Hsw as (Hnt' & Hst' & Hki' & Hfi' & Hde' & Hlen').
    destruct (run_workers_frame window
              (with_killed (Nat.iter (length (_tasks s)) size_incr (_num_killed s))
                 (with_tasks [] (with_stop true s)))) as (_ & _ & _ & _ & Hnt2 & _).
    simpl in Hnt2. ok_split.
    rewrite length_take. unfold is_size in Hk. lia.
  - unfold ResetThreadNum.
    destruct (Z.ltb_spec num_threads (_num_threads s)); [lia|].
    destruct (Z.ltb_spec (_num_threads s) num_threads); [lia|].
    by intros [= <-].
  - unfold ResetThreadNum.
    destruct (Z.ltb_spec num_threads (_num_threads s)); [lia|].
    destruct (Z.ltb_spec (_num_threads s) num_threads); [|lia].
    intros [= <-]. rewrite iter_spawn. ok_split.
    rewrite length_app, length_replicate. lia.
Qed.

Lemma pool_ok_Destroy s s' : pool_ok s -> Destroy s = Some s' -> pool_ok s'.
Proof.
  intros Hok. unfold Destroy. intros Hloop.
  apply (for_each_preserves _ (fun s1 => _stop s1 = true /\ pool_ok s1)) in Hloop.
  - apply Hloop.
  - intros i s1 s2 H1 Hbody. unfold Destroy_body in Hbody.
    destruct (join_if_joinable i s1) as [s1'|] eqn:Hj; [|done]. simplify_eq.
    destruct (pool_ok_join_if_joinable _ _ _ H1 Hj)
      as (Hs & Hnt & Hst & Hki & Hfi & Hde & Hlen).
    split; [done|]. ok_split.
  - split; [reflexivity|exact Hok].
Qed.

(** Every call and every worker step keeps the class invariant. *)
Lemma pool_ok_exec (a : action Task) s s' :
  well_typed a -> pool_ok s -> exec a s = Some s' -> pool_ok s'.
Proof.
  intros Ha Hok Hexec.
  destruct a as [function| | | | |num_threads|id|]; simpl in *.
  - simplify_eq. by apply pool_ok_Invoke.
  - simplify_eq. by apply pool_ok_pop_and_kill.
  - by eapply pool_ok_Detach.
  - simplify_eq. by apply (pool_ok_pop_and_kill (with_stop true s)).
  - rewrite StopForced_eq in Hexec.
    eapply pool_ok_ResetThreadNum; [| |exact Hexec].
    + by apply (pool_ok_pop_and_kill (with_stop true s)).
    + unfold is_size, size_modulus. lia.
  - by eapply pool_ok_ResetThreadNum.
  - by eapply pool_ok_worker_step.
  - by eapply pool_ok_Destroy.
Qed.

Lemma pool_ok_run (acts : list (action Task)) s s' :
  Forall well_typed acts -> pool_ok s -> run acts s = Some s' -> pool_ok s'.
Proof.
  intros Hty. revert s. induction Hty as [|a acts Ha _ IH]; intros s Hok; simpl.
  - by intros [= <-].
  - destruct (exec a s) as [s1|] eqn:Hexec; [|done].
    apply IH. by eapply pool_ok_exec.
Qed.

(** ** Submission *)

(** C3. On a pool whose stop flag is set, [Invoke] returns the pool as it
    found it: queue, counters, thread count, handles and stop flag are all
    unchanged, and the function has no other result (it returns [void] and
    signals nothing). *)
Theorem Invoke_stopped_is_noop (function : Task) s :
  _stop s = true -> Invoke function s = s.
Proof. intros H. unfold Invoke. rewrite H. reflexivity. Qed.

(** C7. On a pool whose stop flag is not set, [Invoke] appends the task at the
    tail of the queue and increments [_num_started] once; the other counters,
    the thread count, the handles and the stop flag are unchanged.  A waiting
    worker takes the head of the queue, so a task already pending is taken
    before the new one. *)
Theorem Invoke_enqueues_at_tail (function : Task) s :
  _stop s = false ->
  _tasks (Invoke function s) = _tasks s ++ [function] /\
  _num_started (Invoke function s) = size_incr (_num_started s) /\
  _num_finished (Invoke function s) = _num_finished s /\
  _num_killed (Invoke function s) = _num_killed s /\
  _num_detached (Invoke function s) = _num_detached s /\
  _num_threads (Invoke function s) = _num_threads s /\
  _threads (Invoke function s) = _threads s /\
  detached_threads (Invoke function s) = detached_threads s /\
  _stop (Invoke function s) = false /\
  _working_task Waiting (Invoke function s) =
    Some (Running (hd function (_tasks s)),
          with_tasks (tl (_tasks s ++ [function])) (Invoke function s)).
Proof.
  intros H. unfold Invoke, _working_task. rewrite H. simpl.
  repeat split; try assumption.
  destruct (_tasks s); reflexivity.
Qed.

(** ** Killing the pending tasks *)

(** C5. [KillAllPending] leaves the queue empty and adds the number of tasks
    that were pending to [_num_killed]; the stop flag, the other counters,
    the thread count and the handles are unchanged. *)
Theorem KillAllPending_kills_pending s :
  is_size (_num_killed s) ->
  _tasks (KillAllPending s) = [] /\
  _num_killed (KillAllPending s) = size_add (_num_killed s) (PendingTaskNum s) /\
  _stop (KillAllPending s) = _stop s /\
  _num_started (KillAllPending s) = _num_started s /\
  _num_finished (KillAllPending s) = _num_finished s /\
  _num_detached (KillAllPending s) = _num_detached s /\
  _num_threads (KillAllPending s) = _num_threads s /\
  _threads (KillAllPending s) = _threads s /\
  detached_threads (KillAllPending s) = detached_threads s.
Proof.
  intros Hk. rewrite KillAllPending_eq. simpl.
  repeat split. unfold PendingTaskNum. apply iter_size_incr, Hk.
Qed.

(** ** Stopping *)

(** C6. A second [Stop] changes nothing: the pool it returns is the pool it
    was given, so [KilledNum] and [FinishedNum] read the same before and after
    it.  This holds right after the first [Stop] and also after the workers
    have taken any steps in between (no task is submitted in between). *)
Theorem Stop_idempotent s :
  Stop (Stop s) = Stop s /\
  forall sched : list worker_id,
    let s1 := run_workers sched (Stop s) in
    Stop s1 = s1 /\
    KilledNum (Stop s1) = KilledNum s1 /\
    FinishedNum (Stop s1) = FinishedNum s1.
Proof.
  assert (Hstop : _stop (Stop s) = true /\ _tasks (Stop s) = []).
  { rewrite Stop_eq. simpl. auto. }
  destruct Hstop as [Hs Hq]. split.
  - apply Stop_stopped_empty; assumption.
  - intros sched s1.
    destruct (run_workers_stopped_empty sched _ Hs Hq) as [Hs1 Hq1].
    fold s1 in Hs1, Hq1.
    rewrite (Stop_stopped_empty s1 Hs1 Hq1). auto.
Qed.

(** ** Waiting *)

(** The wait of [WaitTill], given the states it is woken in: it returns at
    the first of the states it checks (the state at the call, then the state
    at each wake-up) in which
    [finished + killed >= n] holds or, unless the stop signal is ignored, the
    pool is stopped; it returns in no earlier state, stays blocked while no
    checked state satisfies the condition, and its result is [true] exactly
    when [finished >= n] in the state it returns in. *)
Lemma WaitTill_blocks_until (num_tasks : Z) (_ignoreStopSignal : bool)
    s (wakeups : list (pool Task)) :
  (forall b : bool,
     WaitTill num_tasks _ignoreStopSignal s wakeups = Some b <->
     exists before s' after,
       s :: wakeups = before ++ s' :: after /\
       Forall (fun x => ~ wake_condition num_tasks _ignoreStopSignal x) before /\
       wake_condition num_tasks _ignoreStopSignal s' /\
       (b = true <-> num_tasks <= _num_finished s')) /\
  (WaitTill num_tasks _ignoreStopSignal s wakeups = None <->
   Forall (fun x => ~ wake_condition num_tasks _ignoreStopSignal x) (s :: wakeups)).
Proof.
  unfold WaitTill. split.
  - intros b. split.
    + destruct (cv_wait _ s wakeups) as [s'|] eqn:E; [|done].
      intros [= <-]. apply cv_wait_Some in E as (before & after & Heq & Hb & Hp).
      exists before, s', after. split; [done|]. split.
      * revert Hb; apply Forall_impl; intros x Hx. by apply WaitTill_pred_false.
      * split; [by apply WaitTill_pred_spec|]. by rewrite Z.leb_le.
    + intros (before & s' & after & Heq & Hb & Hp & Hr).
      assert (E : cv_wait (WaitTill_pred num_tasks _ignoreStopSignal) s wakeups = Some s').
      { apply cv_wait_Some. exists before, after. split; [done|]. split.
        - revert Hb; apply Forall_impl; intros x Hx. by apply WaitTill_pred_false.
        - by apply WaitTill_pred_spec. }
      rewrite E. f_equal.
      destruct b, (num_tasks <=? _num_finished s') eqn:L; try done.
      * apply Z.leb_gt in L. destruct Hr as [Hr _]. specialize (Hr eq_refl). lia.
      * apply Z.leb_le in L. destruct Hr as [_ Hr]. by specialize (Hr L).
  - destruct (cv_wait _ s wakeups) as [s'|] eqn:E.
    + split; [done|]. intros H.
      assert (E' : cv_wait (WaitTill_pred num_tasks _ignoreStopSignal) s wakeups = None).
      { apply cv_wait_None. revert H; apply Forall_impl; intros x Hx. by apply WaitTill_pred_false. }
      congruence.
    + split; [|done]. intros _. apply cv_wait_None in E.
      revert E; apply Forall_impl; intros x Hx. by apply WaitTill_pred_false.
Qed.

(** C9. [WaitTillAll] is [WaitTill] with the target
    [_num_started + _num_detached] read at the call: same result, and blocked
    on the same states.  It is also what its description says: it waits for
    that many tasks to have finished or been killed and reports whether that
    many finished. *)
Theorem WaitTillAll_is_WaitTill (_ignoreStopSignal : bool) s (wakeups : list (pool Task)) :
  WaitTillAll _ignoreStopSignal s wakeups =
    WaitTill (size_add (_num_started s) (_num_detached s)) _ignoreStopSignal s wakeups /\
  WaitTillAll _ignoreStopSignal s wakeups =
    WaitTillAll_described _ignoreStopSignal s wakeups.
Proof.
  split; [reflexivity|].
  unfold WaitTillAll, WaitTillAll_described, WaitTill.
  generalize (size_add (_num_started s) (_num_detached s)) as target.
  intros target. revert s.
  induction wakeups as [|x wakeups IH]; intros s; simpl;
    unfold WaitTill_pred; destruct _ignoreStopSignal; simpl;
    rewrite ?orb_false_r;
    match goal with |- context [if ?c then _ else _] => destruct c eqn:E end;
    try reflexivity.
  - specialize (IH x). unfold WaitTill_pred in IH. simpl in IH. exact IH.
  - specialize (IH x). unfold WaitTill_pred in IH. simpl in IH. exact IH.
Qed.

(** ** Destruction *)

(** C8. [Destroy] (the destructor) always returns; it sets the stop flag,
    leaves no handle joinable (every joinable one has been joined, so its
    worker has counted the task it was running and returned), and adds the
    number of handles in [_threads] to [_num_killed], whatever the workers
    were doing. *)
Theorem Destroy_counts_every_handle s :
  is_size (_num_killed s) ->
  exists s',
    Destroy s = Some s' /\
    _stop s' = true /\
    length (_threads s') = length (_threads s) /\
    Forall (fun t => joinable t = false) (_threads s') /\
    _num_killed s' = size_add (_num_killed s) (Z.of_nat (length (_threads s))) /\
    (exists n : nat,
       _num_finished s' = Nat.iter n size_incr (_num_finished s) /\
       Z.of_nat n + Z.of_nat (length (_tasks s')) =
         sumZ running_owned (_threads s) + Z.of_nat (length (_tasks s))) /\
    _num_started s' = _num_started s /\
    _num_detached s' = _num_detached s /\
    _num_threads s' = _num_threads s /\
    detached_threads s' = detached_threads s.
Proof.
  intros Hk. unfold Destroy.
  pose (I := fun (i : nat) (s1 : pool Task) =>
    _stop s1 = true /\
    length (_threads s1) = length (_threads s) /\
    (forall j, (j < i)%nat -> _threads s1 !! j = Some NotJoinable) /\
    _num_killed s1 = Nat.iter i size_incr (_num_killed s) /\
    (exists n : nat,
       _num_finished s1 = Nat.iter n size_incr (_num_finished s) /\
       Z.of_nat n + Z.of_nat (length (_tasks s1)) + sumZ running_owned (_threads s1) =
         sumZ running_owned (_threads s) + Z.of_nat (length (_tasks s))) /\
    _num_started s1 = _num_started s /\
    _num_detached s1 = _num_detached s /\
    _num_threads s1 = _num_threads s /\
    detached_threads s1 = detached_threads s).
  destruct (for_each_seq_total Destroy_body I 0 (length (_threads (with_stop true s)))
              (with_stop true s)) as (s' & Hs' & HI).
  - unfold I. simpl. repeat split; try reflexivity.
    + intros j Hj. lia.
    + exists 0%nat. simpl. split; [reflexivity|lia].
  - intros i s1 Hi (Hs1 & Hlen & Hnj & Hkill & (n & Hfin & Hbal) & Hst & Hdet & Hnt & Hdt).
    simpl in Hi.
    destruct (lookup_lt_is_Some_2 (_threads s1) i) as [t Ht]; [lia|].
    destruct (join_if_joinable_stopped i s1 t Hs1 Ht) as (m & q' & Hj & Hm & _).
    unfold Destroy_body. rewrite Hj. eexists. split; [reflexivity|].
    unfold I. simpl. repeat split; try assumption.
    + by rewrite length_insert.
    + intros j Hj'. destruct (decide (j = i)) as [->|Hne].
      * apply list_lookup_insert_eq. lia.
      * rewrite list_lookup_insert_ne by done. apply Hnj. lia.
    + by rewrite Hkill.
    + exists (m + n)%nat. split.
      * by rewrite Nat.iter_add, Hfin.
      * rewrite (sumZ_insert _ _ _ t) by done. simpl.
        pose proof (running_owned_nonneg t). lia.
  - destruct HI as (Hs1 & Hlen & Hnj & Hkill & (n & Hfin & Hbal) & Hst & Hdet & Hnt & Hdt).
    simpl in *.
    assert (Hall : Forall (fun t => joinable t = false) (_threads s')).
    { apply Forall_lookup. intros j t Ht.
      rewrite Hnj in Ht; [by simplify_eq|].
      apply lookup_lt_Some in Ht. lia. }
    exists s'. repeat split; try assumption.
    + rewrite Hkill. by apply iter_size_incr.
    + exists n. split; [done|].
      rewrite (sumZ_zero running_owned (_threads s')) in Hbal; [lia|].
      revert Hall. apply Forall_impl. intros [w|]; simpl; [done|reflexivity].
Qed.

(** ** Resizing and the forced stop *)

(** What [ResetThreadNum(k)] establishes whatever the other workers do in the
    window: it returns with [ThreadNum() = k] and the class invariant kept;
    when [k] is below the current count the stop flag is cleared on return
    ([Valid()] is [true]) and [k] handles are left; when [k] is the current
    count the pool is returned as it was.  (In the model every thread is
    created.) *)
Lemma ResetThreadNum_sets_thread_count (num_threads : Z)
    (window : list worker_id) s :
  pool_ok s -> is_size num_threads ->
  exists s',
    ResetThreadNum num_threads window s = Some s' /\
    ThreadNum s' = num_threads /\
    pool_ok s' /\
    (num_threads < ThreadNum s ->
       Valid s' = true /\ _stop s' = false /\
       length (_threads s') = Z.to_nat num_threads) /\
    (num_threads = ThreadNum s -> s' = s).
Proof.
  intros Hok Hk. pose proof Hok as (Hnt & Hst & Hki & Hfi & Hde & Hlen).
  unfold ThreadNum.
  destruct (Z.lt_trichotomy num_threads (_num_threads s)) as [Hlt|[Heq|Hgt]].
  - destruct (ResetThreadNum_shrink num_threads window s) as (n & Hrun);
      [unfold is_size in Hk; lia|done|].
    pose proof (pool_ok_ResetThreadNum _ _ _ _ Hok Hk Hrun) as Hok'.
    eexists. split; [exact Hrun|]. split; [reflexivity|]. split; [exact Hok'|].
    split; [|intros ->; lia]. intros _. split; [reflexivity|]. split; [reflexivity|].
    destruct Hok' as (_ & _ & _ & _ & _ & Hlen'). simpl in Hlen'. simpl. lia.
  - exists s. unfold ResetThreadNum.
    destruct (Z.ltb_spec num_threads (_num_threads s)); [lia|].
    destruct (Z.ltb_spec (_num_threads s) num_threads); [lia|].
    split; [reflexivity|]. split; [done|]. split; [done|].
    split; [intros; lia|done].
  - unfold ResetThreadNum.
    destruct (Z.ltb_spec num_threads (_num_threads s)); [lia|].
    destruct (Z.ltb_spec (_num_threads s) num_threads); [|lia].
    eexists. split; [reflexivity|]. rewrite iter_spawn. simpl.
    split; [reflexivity|]. split.
    + unfold pool_ok. simpl. repeat split; try apply Hk; try apply Hst;
        try apply Hki; try apply Hfi; try apply Hde.
      rewrite length_app, length_replicate. lia.
    + split; intros; lia.
Qed.

(** C10. On a pool with at least one thread, [StopForced] returns with the
    stop flag cleared: [Valid()] is [true], no handle is left, and an [Invoke]
    that follows puts its task in the queue and counts it started.  On a pool
    whose thread count is already zero the stop flag stays set and [Valid()]
    is [false].  This holds whatever the workers do while the lock is
    released for the joins. *)
Theorem StopForced_clears_stop_unless_no_thread (window : list worker_id) s :
  pool_ok s ->
  (1 <= ThreadNum s ->
     exists s',
       StopForced window s = Some s' /\
       Valid s' = true /\ _stop s' = false /\
       ThreadNum s' = 0 /\ _threads s' = [] /\
       forall function : Task,
         _tasks (Invoke function s') = [function] /\
         _num_started (Invoke function s') = size_incr (_num_started s)) /\
  (ThreadNum s = 0 ->
     exists s',
       StopForced window s = Some s' /\ _stop s' = true /\ Valid s' = false).
Proof.
  intros (Hnt & Hst & Hki & Hfi & Hde & Hlen). unfold ThreadNum.
  rewrite StopForced_eq, Stop_eq. split.
  - intros Hpos.
    destruct (ResetThreadNum_shrink 0 window
                (with_killed (Nat.iter (length (_tasks s)) size_incr (_num_killed s))
                   (with_tasks [] (with_stop true s)))) as (n & Hrun);
      [simpl; lia|done|].
    simpl in Hrun.
    match type of Hrun with context [run_workers window ?X] =>
      destruct (run_workers_stopped_empty window X eq_refl eq_refl) as [_ Hwq];
      destruct (run_workers_frame window X) as (_ & Hwst & _)
    end.
    eexists. split; [exact Hrun|]. unfold Valid, Invoke. simpl.
    rewrite Hwq, Hwst. repeat split.
  - intros Hzero. eexists. unfold ResetThreadNum. simpl. rewrite Hzero. simpl.
    split; [reflexivity|]. split; reflexivity.
Qed.

(** ** Accounting *)

(** C1, as amended.  In every state reached from a new pool by calls to
    [Invoke], [KillAllPending], [Detach], [Stop], [StopForced] and
    [ResetThreadNum] and by worker steps, in any order, with fewer than [2^64]
    submissions and without the destructor, [finished + killed <= started];
    more precisely each task counted started is counted finished, or counted
    killed, or pending, or being run, and never two of these. *)
Theorem accounting_invariant_before_Destroy (num_threads : Z)
    (acts : list (action Task)) s :
  existsb is_Destroy acts = false ->
  submissions acts < size_modulus ->
  run acts (ThreadPool num_threads) = Some s ->
  _num_finished s + _num_killed s <= _num_started s /\
  _num_finished s + _num_killed s + PendingTaskNum s + in_flight s = _num_started s.
Proof.
  intros Hnd Hsub Hrun.
  destruct (balanced_run acts 0 (ThreadPool num_threads) s Hnd)
    as (Hf & Hk & Heq & Hb); [lia|apply balanced_ThreadPool|exact Hrun|].
  split; [|exact Heq].
  pose proof (in_flight_nonneg s). unfold PendingTaskNum in Heq. lia.
Qed.

(** ** Executions that submit only *)

Lemma run_app (acts1 acts2 : list (action Task)) s :
  run (acts1 ++ acts2) s =
    match run acts1 s with Some s1 => run acts2 s1 | None => None end.
Proof.
  revert s. induction acts1 as [|a acts1 IH]; intros s; simpl; [done|].
  destruct (exec a s); [apply IH|done].
Qed.

Lemma run_Invokes (function : Task) (n : nat) s :
  _stop s = false ->
  run (repeat (AInvoke function) n) s =
    Some (with_started (Nat.iter n size_incr (_num_started s))
            (with_tasks (_tasks s ++ repeat function n) s)).
Proof.
  revert s. induction n as [|n IH]; intros s Hs.
  - simpl. rewrite app_nil_r. destruct s; reflexivity.
  - cbn [repeat run exec]. unfold Invoke. rewrite Hs. cbn [negb].
    rewrite IH by done. simpl.
    rewrite <- app_assoc, Nat.iter_swap. reflexivity.
Qed.

Lemma no_Destroy_in_Invokes (function : Task) (n : nat) :
  existsb is_Destroy (repeat (AInvoke function) n) = false.
Proof. induction n as [|n IH]; simpl; [reflexivity|exact IH]. Qed.

End PoolProperties.

(** * The theorems at concrete pools *)

(** ** The model, run *)


(** Shrinking to one thread joins the second worker only; if the first takes
    no step in the meantime it keeps running its task. *)
Example ResetThreadNum_busy_pool :
  ResetThreadNum 1 [] busy_pool =
    Some {| _threads := [Joinable (Running 7%nat)]; _tasks := [];
            _num_threads := 1; _num_started := 5; _num_killed := 3;
            _num_finished := 1; _num_detached := 0; _stop := false;
            detached_threads := [] |}.
Proof. reflexivity. Qed.

(** If the first worker finishes its task while the lock is released, it
    then finds the stop flag set and returns: one handle is kept, and its
    thread is gone. *)
Example ResetThreadNum_busy_pool_window :
  ResetThreadNum 1 [Owned 0; Owned 0] busy_pool =
    Some {| _threads := [Joinable Exited]; _tasks := [];
            _num_threads := 1; _num_started := 5; _num_killed := 3;
            _num_finished := 2; _num_detached := 0; _stop := false;
            detached_threads := [] |}.
Proof. reflexivity. Qed.

(** The forced stop waits for the running task, which is counted finished. *)
Example StopForced_busy_pool :
  StopForced [] busy_pool =
    Some {| _threads := []; _tasks := [];
            _num_threads := 0; _num_started := 5; _num_killed := 3;
            _num_finished := 2; _num_detached := 0; _stop := false;
            detached_threads := [] |}.
Proof. reflexivity. Qed.

(** The destructor does not kill the pending tasks: the joined workers run
    them, and the two handles are counted killed. *)
Example Destroy_busy_pool :
  Destroy busy_pool =
    Some {| _threads := [NotJoinable; NotJoinable]; _tasks := [];
            _num_threads := 2; _num_started := 5; _num_killed := 3;
            _num_finished := 4; _num_detached := 0; _stop := true;
            detached_threads := [] |}.
Proof. reflexivity. Qed.

(** The detached workers go on with the queue. *)
Example Detach_busy_pool :
  Detach busy_pool =
    Some {| _threads := [NotJoinable; NotJoinable]; _tasks := [8%nat; 9%nat];
            _num_threads := 2; _num_started := 5; _num_killed := 1;
            _num_finished := 1; _num_detached := 2; _stop := true;
            detached_threads := [Running 7%nat; Waiting] |}.
Proof. reflexivity. Qed.

(** A second [Detach] calls [detach] on handles that are not joinable. *)
Example Detach_twice : run [ADetach; ADetach] busy_pool = None.
Proof. reflexivity. Qed.

(** A waiter for six completions that finds the pool stopped at its next
    wake-up returns [false]; told to ignore the stop signal, it stays
    blocked. *)
Example WaitTill_stopped :
  WaitTill 6 false busy_pool [Stop busy_pool] = Some false /\
  WaitTill 6 true busy_pool [Stop busy_pool] = None /\
  WaitTill 1 false busy_pool [] = Some true.
Proof. repeat split; reflexivity. Qed.

(** C1: the destructor of a new pool with one worker, to which nothing was
    ever submitted, leaves [killed = 1] with [started = 0]. *)
Lemma Destroy_breaks_accounting :
  exists s : pool nat,
    run [ADestroy] (ThreadPool 1) = Some s /\
    _num_started s = 0 /\ _num_finished s = 0 /\ _num_killed s = 1 /\
    ~ (_num_finished s + _num_killed s <= _num_started s).
Proof.
  exists {| _threads := [NotJoinable]; _tasks := []; _num_threads := 1;
            _num_started := 0; _num_killed := 1; _num_finished := 0;
            _num_detached := 0; _stop := true; detached_threads := [] |}.
  split; [reflexivity|]. simpl. repeat split; lia.
Qed.

(** The bound on the submissions cannot be dropped either: after [2^64 - 1]
    submissions that are all killed, one more submission wraps
    [_num_started] to [0]. *)
Lemma wrapping_execution_breaks_accounting :
  existsb is_Destroy wrapping_execution = false /\
  exists s : pool nat,
    run wrapping_execution (ThreadPool 0) = Some s /\
    _num_started s = 0 /\ _num_finished s = 0 /\
    _num_killed s = size_modulus - 1.
Proof.
  unfold wrapping_execution.
  set (n := Z.to_nat (size_modulus - 1)).
  assert (Hn : Z.of_nat n = size_modulus - 1).
  { unfold n. apply Z2Nat.id. unfold size_modulus. lia. }
  clearbody n. split.
  - rewrite existsb_app, no_Destroy_in_Invokes. reflexivity.
  - change (ThreadPool 0) with
      ({| _threads := []; _tasks := []; _num_threads := 0; _num_started := 0;
          _num_killed := 0; _num_finished := 0; _num_detached := 0;
          _stop := false; detached_threads := [] |} : pool nat).
    rewrite run_app, run_Invokes by reflexivity.
    cbn [run exec]. rewrite KillAllPending_eq.
    eexists. split; [reflexivity|].
    unfold Invoke. cbn -[Nat.iter size_incr].
    rewrite repeat_length.
    rewrite !iter_size_incr by (unfold is_size, size_modulus; lia).
    rewrite Hn. unfold size_incr, size_add, size_modulus.
    repeat split; reflexivity.
Qed.

Lemma accounting_invariant_witness :
  existsb is_Destroy sample_execution = false /\
  submissions sample_execution < size_modulus /\
  run sample_execution (ThreadPool 2) = Some sample_outcome /\
  _num_finished sample_outcome + _num_killed sample_outcome
    <= _num_started sample_outcome /\
  _num_finished sample_outcome + _num_killed sample_outcome
    + PendingTaskNum sample_outcome + in_flight sample_outcome
    = _num_started sample_outcome.
Proof.
  split; [reflexivity|]. split; [reflexivity|]. split; [reflexivity|].
  apply (accounting_invariant_before_Destroy 2 sample_execution sample_outcome);
    reflexivity.
Defined.

Lemma Invoke_stopped_witness :
  _stop (Stop busy_pool) = true /\ Invoke 3%nat (Stop busy_pool) = Stop busy_pool.
Proof.
  split; [reflexivity|]. apply Invoke_stopped_is_noop. reflexivity.
Defined.

Lemma Invoke_enqueues_witness :
  _stop busy_pool = false /\
  _tasks (Invoke 3%nat busy_pool) = [8%nat; 9%nat; 3%nat] /\
  _num_started (Invoke 3%nat busy_pool) = 6.
Proof.
  split; [reflexivity|].
  destruct (Invoke_enqueues_at_tail 3%nat busy_pool eq_refl) as (Hq & Hs & _).
  split; [exact Hq|exact Hs].
Defined.

Lemma KillAllPending_witness :
  is_size (_num_killed busy_pool) /\
  _tasks (KillAllPending busy_pool) = [] /\
  _num_killed (KillAllPending busy_pool) = 3.
Proof.
  assert (H : is_size (_num_killed busy_pool)) by (unfold is_size, size_modulus; simpl; lia).
  split; [exact H|].
  destruct (KillAllPending_kills_pending busy_pool H) as (Hq & Hk & _).
  split; [exact Hq|exact Hk].
Defined.

Lemma Destroy_witness :
  is_size (_num_killed busy_pool) /\
  exists s' : pool nat,
    Destroy busy_pool = Some s' /\ _stop s' = true /\
    _num_killed s' = size_add (_num_killed busy_pool) 2.
Proof.
  assert (H : is_size (_num_killed busy_pool)) by (unfold is_size, size_modulus; simpl; lia).
  split; [exact H|].
  destruct (Destroy_counts_every_handle busy_pool H) as (s' & Hd & Hs & _ & _ & Hk & _).
  exists s'. split; [exact Hd|]. split; [exact Hs|exact Hk].
Defined.

Lemma pool_ok_busy_pool : pool_ok busy_pool.
Proof. unfold pool_ok, is_size, size_modulus. simpl. lia. Qed.

Lemma pool_ok_empty_pool : pool_ok empty_pool.
Proof. unfold pool_ok, is_size, size_modulus. simpl. lia. Qed.

Lemma ResetThreadNum_witness :
  pool_ok busy_pool /\ is_size 1 /\ is_size 2 /\
  (exists s' : pool nat,
     ResetThreadNum 1 [Owned 0] busy_pool = Some s' /\
     ThreadNum s' = 1 /\ Valid s' = true) /\
  ResetThreadNum 2 [] busy_pool = Some busy_pool.
Proof.
  assert (H1 : is_size 1) by (unfold is_size, size_modulus; lia).
  assert (H2 : is_size 2) by (unfold is_size, size_modulus; lia).
  split; [exact pool_ok_busy_pool|]. split; [exact H1|]. split; [exact H2|]. split.
  - destruct (ResetThreadNum_sets_thread_count 1 [Owned 0] busy_pool
                pool_ok_busy_pool H1)
      as (s' & Hr & Hn & _ & Hshrink & _).
    exists s'. split; [exact Hr|]. split; [exact Hn|].
    apply Hshrink. reflexivity.
  - destruct (ResetThreadNum_sets_thread_count 2 [] busy_pool pool_ok_busy_pool H2)
      as (s' & Hr & _ & _ & _ & Hsame).
    rewrite Hr. f_equal. apply Hsame. reflexivity.
Defined.

Lemma StopForced_witness :
  pool_ok busy_pool /\ 1 <= ThreadNum busy_pool /\
  (exists s' : pool nat,
     StopForced [Owned 1] busy_pool = Some s' /\ Valid s' = true) /\
  pool_ok empty_pool /\ ThreadNum empty_pool = 0 /\
  (exists s' : pool nat, StopForced [] empty_pool = Some s' /\ Valid s' = false).
Proof.
  assert (H1 : 1 <= ThreadNum busy_pool) by (simpl; lia).
  split; [exact pool_ok_busy_pool|]. split; [exact H1|]. split.
  - destruct (StopForced_clears_stop_unless_no_thread [Owned 1] busy_pool
                pool_ok_busy_pool)
      as [Hpos _].
    destruct (Hpos H1) as (s' & Hs & Hv & _). exists s'. split; [exact Hs|exact Hv].
  - split; [exact pool_ok_empty_pool|]. split; [reflexivity|].
    destruct (StopForced_clears_stop_unless_no_thread [] empty_pool
                pool_ok_empty_pool)
      as [_ Hzero].
    destruct (Hzero eq_refl) as (s' & Hs & _ & Hv). exists s'. split; [exact Hs|exact Hv].
Defined.

(** * Further properties of the code *)

Section Coverage.

Context {Task : Type}.
Implicit Types (s : pool Task) (w : worker Task) (q : list Task).

(** ** Construction *)

Lemma ThreadPool_eq (num_threads : Z) :
  ThreadPool (Task := Task) num_threads =
    {| _threads := replicate (Z.to_nat num_threads) (Joinable Waiting);
       _tasks := []; _num_threads := num_threads; _num_started := 0;
       _num_killed := 0; _num_finished := 0; _num_detached := 0;
       _stop := false; detached_threads := [] |}.
Proof. unfold ThreadPool. rewrite iter_spawn. reflexivity. Qed.

(** X1. A new pool holds one joinable, waiting worker per requested thread,
    an empty queue, zeroed counters and a clear stop flag, and it is
    quiescent: no worker can take a step until something is submitted. *)
Theorem ThreadPool_starts_idle (num_threads : Z) :
  is_size num_threads ->
  let s := ThreadPool (Task := Task) num_threads in
  _threads s = replicate (Z.to_nat num_threads) (Joinable Waiting) /\
  ThreadNum s = num_threads /\ Valid s = true /\
  IsNoPending s = true /\ PendingTaskNum s = 0 /\
  StartedNum s = 0 /\ FinishedNum s = 0 /\ KilledNum s = 0 /\ DetachedNum s = 0 /\
  pool_ok s /\
  forall id, worker_step id s = None.
Proof.
  intros Hn s. subst s. split; [by rewrite ThreadPool_eq|].
  do 8 (split; [by rewrite ThreadPool_eq|]).
  split; [by apply pool_ok_ThreadPool|].
  intros id. rewrite ThreadPool_eq. unfold worker_step. simpl.
  destruct id as [i|j]; [|done].
  destruct (replicate _ _ !! i) as [t|] eqn:Hi; [|done].
  apply lookup_replicate in Hi as [-> _]. reflexivity.
Qed.

(** ** The worker loop *)

Lemma worker_step_take i s (t : Task) q :
  _threads s !! i = Some (Joinable Waiting) -> _tasks s = t :: q ->
  worker_step (Owned i) s =
    Some (with_threads (<[i := Joinable (Running t)]> (_threads s)) (with_tasks q s)).
Proof. intros Hi Hq. unfold worker_step, _working_task. by rewrite Hi, Hq. Qed.

Lemma worker_step_finish i s (t : Task) :
  _threads s !! i = Some (Joinable (Running t)) ->
  worker_step (Owned i) s =
    Some (with_threads (<[i := Joinable Waiting]> (_threads s))
            (with_finished (size_incr (_num_finished s)) s)).
Proof. intros Hi. unfold worker_step, _working_task. by rewrite Hi. Qed.

(** One turn of the loop: take the front task, run it, count it. *)
Lemma take_then_finish i s (t : Task) q :
  _threads s !! i = Some (Joinable Waiting) -> _tasks s = t :: q ->
  run [AWorker (Owned i); AWorker (Owned i)] s =
    Some (with_finished (size_incr (_num_finished s)) (with_tasks q s)).
Proof.
  intros Hi Hq. cbn [run exec].
  rewrite (worker_step_take i s t q Hi Hq).
  rewrite (worker_step_finish i _ t).
  - simpl. rewrite list_insert_insert_eq, list_insert_id by done.
    destruct s; reflexivity.
  - simpl. apply list_lookup_insert_eq. by eapply lookup_lt_Some.
Qed.

(** X2. Tasks are taken in queue order: a waiting worker that runs alone is,
    after [2 j + 1] steps, running the [j]-th pending task, with the [j]
    earlier ones counted finished and the later ones still queued. *)
Theorem worker_takes_in_queue_order i (j : nat) s (t : Task) :
  _threads s !! i = Some (Joinable Waiting) ->
  _tasks s !! j = Some t ->
  run (replicate (2 * j + 1) (AWorker (Owned i))) s =
    Some (with_threads (<[i := Joinable (Running t)]> (_threads s))
            (with_finished (Nat.iter j size_incr (_num_finished s))
               (with_tasks (drop (S j) (_tasks s)) s))).
Proof.
  revert s. induction j as [|j IH]; intros s Hi Hj.
  - destruct (_tasks s) as [|t0 q] eqn:Hq; [done|].
    injection Hj as ->. cbn [Nat.mul Nat.add replicate run exec].
    rewrite (worker_step_take i s t q Hi Hq). simpl. rewrite drop_0.
    destruct s; reflexivity.
  - destruct (_tasks s) as [|t0 q] eqn:Hq; [done|].
    change ((t0 :: q) !! S j) with (q !! j) in Hj.
    replace (2 * S j + 1)%nat with (S (S (2 * j + 1))) by lia.
    change (replicate (S (S (2 * j + 1))) (AWorker (Task := Task) (Owned i)))
      with ([AWorker (Task := Task) (Owned i); AWorker (Owned i)]
              ++ replicate (2 * j + 1) (AWorker (Owned i))).
    rewrite run_app, (take_then_finish i s t0 q Hi Hq).
    rewrite IH by done. simpl. rewrite Nat.iter_swap. reflexivity.
Qed.

Lemma run_drain i s :
  _threads s !! i = Some (Joinable Waiting) ->
  run (replicate (2 * length (_tasks s)) (AWorker (Owned i))) s =
    Some (with_finished
            (Nat.iter (length (_tasks s)) size_incr (_num_finished s))
            (with_tasks [] s)).
Proof.
  remember (_tasks s) as q eqn:Hq. revert s Hq.
  induction q as [|t q IH]; intros s Hq Hi.
  - simpl. destruct s; simpl in *; subst; reflexivity.
  - replace (2 * length (t :: q))%nat with (S (S (2 * length q))) by (simpl; lia).
    change (replicate (S (S (2 * length q))) (AWorker (Task := Task) (Owned i)))
      with ([AWorker (Task := Task) (Owned i); AWorker (Owned i)]
              ++ replicate (2 * length q) (AWorker (Owned i))).
    rewrite run_app, (take_then_finish i s t q Hi (eq_sym Hq)).
    rewrite (IH (with_finished (size_incr (_num_finished s)) (with_tasks q s)))
      by done.
    simpl. rewrite Nat.iter_swap. reflexivity.
Qed.

(** X3. A worker that runs alone empties the queue, stop flag or not: after
    two steps per pending task every one of them is counted finished.  Only
    then does the stop flag matter: with it set the next step is the return
    from the loop, without it the worker stays blocked. *)
Theorem worker_drains_queue i s :
  _threads s !! i = Some (Joinable Waiting) ->
  let s' := with_finished
              (Nat.iter (length (_tasks s)) size_incr (_num_finished s))
              (with_tasks [] s) in
  run (replicate (2 * length (_tasks s)) (AWorker (Owned i))) s = Some s' /\
  (_stop s = true ->
     worker_step (Owned i) s' =
       Some (with_threads (<[i := Joinable Exited]> (_threads s)) s')) /\
  (_stop s = false -> worker_step (Owned i) s' = None).
Proof.
  intros Hi s'. subst s'. split; [by apply run_drain|].
  unfold worker_step, _working_task. simpl. rewrite Hi.
  split; intros ->; reflexivity.
Qed.

Lemma run_map_Invoke (ts : list Task) s :
  _stop s = false ->
  run (map AInvoke ts) s =
    Some (with_started (Nat.iter (length ts) size_incr (_num_started s))
            (with_tasks (_tasks s ++ ts) s)).
Proof.
  revert s. induction ts as [|t ts IH]; intros s Hs.
  - simpl. rewrite app_nil_r. destruct s; reflexivity.
  - cbn [map run exec]. unfold Invoke. rewrite Hs. cbn [negb].
    rewrite IH by done. simpl.
    rewrite <- app_assoc, Nat.iter_swap. reflexivity.
Qed.

(** X4. Submit any tasks (fewer than [2^64]) to a new pool with at least one
    thread and let the first worker run: every task is counted started and
    finished, none killed, the queue is empty, and [WaitTillAll] returns
    [true] at once. *)
Theorem submitted_tasks_all_finish (num_threads : Z) (ts : list Task)
    (_ignoreStopSignal : bool) :
  1 <= num_threads ->
  Z.of_nat (length ts) < size_modulus ->
  exists s,
    run (map AInvoke ts ++ replicate (2 * length ts) (AWorker (Owned 0)))
        (ThreadPool num_threads) = Some s /\
    StartedNum s = Z.of_nat (length ts) /\
    FinishedNum s = Z.of_nat (length ts) /\
    KilledNum s = 0 /\ IsNoPending s = true /\ Valid s = true /\
    WaitTillAll _ignoreStopSignal s [] = Some true.
Proof.
  intros Hn Hlen. rewrite run_app, ThreadPool_eq, run_map_Invoke by reflexivity.
  cbn [_tasks _num_started app].
  set (s1 := with_started _ _).
  assert (H0 : _threads s1 !! 0%nat = Some (Joinable Waiting)).
  { simpl. apply lookup_replicate_2. lia. }
  pose proof (run_drain 0 s1 H0) as Hrun. simpl in Hrun.
  eexists. split; [exact Hrun|].
  unfold StartedNum, FinishedNum, KilledNum, IsNoPending, Valid, WaitTillAll,
    WaitTill. simpl.
  rewrite !iter_size_incr_small by lia.
  unfold WaitTill_pred. simpl. rewrite !Z.add_0_l.
  rewrite !size_add_small by lia. rewrite Z.add_0_r.
  destruct _ignoreStopSignal; simpl; rewrite ?orb_false_r, Z.leb_refl; simpl;
    rewrite ?Z.leb_refl; repeat split; reflexivity.
Qed.

(** ** Detaching *)

Lemma owned_workers_app (v1 v2 : list (thread Task)) :
  owned_workers (v1 ++ v2) = owned_workers v1 ++ owned_workers v2.
Proof. unfold owned_workers. apply flat_map_app. Qed.

(** [Detach] in closed form, when every handle is joinable. *)
Lemma Detach_joinable s :
  Forall (fun t => joinable t = true) (_threads s) ->
  Detach s =
    Some (with_detached
            (Nat.iter (length (_threads s)) size_incr (_num_detached s))
            (with_detached_threads
               (detached_threads s ++ owned_workers (_threads s))
               (with_threads (replicate (length (_threads s)) NotJoinable)
                  (with_stop true s)))).
Proof.
  intros Hall. unfold Detach.
  pose (I := fun (i : nat) (s1 : pool Task) =>
    s1 = with_detached (Nat.iter i size_incr (_num_detached s))
           (with_detached_threads
              (detached_threads s ++ owned_workers (take i (_threads s)))
              (with_threads (replicate i NotJoinable ++ drop i (_threads s))
                 (with_stop true s)))).
  destruct (for_each_seq_total Detach_body I 0 (length (_threads (with_stop true s)))
              (with_stop true s)) as (s' & -> & HI).
  - unfold I. simpl. rewrite app_nil_r. destruct s; reflexivity.
  - intros i s1 Hi ->. simpl in Hi.
    destruct (lookup_lt_is_Some_2 (_threads s) i) as [t Ht]; [lia|].
    assert (Hj : joinable t = true).
    { eapply (proj1 (Forall_lookup _ _) Hall); exact Ht. }
    destruct t as [w|]; [|done].
    assert (Hlook : (replicate i NotJoinable ++ drop i (_threads s)) !! i
                    = Some (Joinable w)).
    { rewrite lookup_app_r by (rewrite length_replicate; lia).
      rewrite length_replicate, Nat.sub_diag, lookup_drop, Nat.add_0_r. done. }
    assert (Hv : <[i := NotJoinable]> (replicate i NotJoinable ++ drop i (_threads s))
                 = replicate (S i) NotJoinable ++ drop (S i) (_threads s)).
    { rewrite insert_app_r_alt by (rewrite length_replicate; lia).
      rewrite length_replicate, Nat.sub_diag, (drop_S _ _ _ Ht). simpl.
      rewrite app_comm_cons, replicate_cons_app, <- app_assoc. reflexivity. }
    unfold Detach_body. cbn [_threads with_detached with_detached_threads with_threads].
    rewrite Hlook.
    eexists. split; [reflexivity|]. unfold I.
    cbn [_threads _num_detached detached_threads with_detached
         with_detached_threads with_threads].
    rewrite Hv, (take_S_r _ _ _ Ht), owned_workers_app, app_assoc.
    rewrite Nat.iter_succ. reflexivity.
  - unfold I in HI. simpl in HI. rewrite HI.
    rewrite drop_all, take_ge, app_nil_r by lia. reflexivity.
Qed.

(** A [Detach] that returns found every handle joinable. *)
Lemma for_each_Detach_body_joinable (k m : nat) s s' :
  for_each Detach_body (seq k m) s = Some s' ->
  forall j, (k <= j < k + m)%nat -> exists w, _threads s !! j = Some (Joinable w).
Proof.
  revert k s. induction m as [|m IH]; intros k s Hrun j Hj; [lia|].
  simpl in Hrun. unfold Detach_body in Hrun at 1.
  destruct (_threads s !! k) as [[w|]|] eqn:Hk; try done.
  destruct (decide (j = k)) as [->|Hne]; [eauto|].
  destruct (IH _ _ Hrun j) as [w' Hw']; [lia|].
  simpl in Hw'. rewrite list_lookup_insert_ne in Hw' by done. eauto.
Qed.

(** X5. On a pool whose handles are all joinable, [Detach] returns with the
    stop flag set, no handle joinable, and one more in [_num_detached] per
    handle.  The workers are released as they are (a running one keeps its
    task), the queue is left as it is (nothing is killed), and [ThreadNum()]
    still reports the old count. *)
Theorem Detach_releases_every_worker s :
  Forall (fun t => joinable t = true) (_threads s) ->
  is_size (_num_detached s) ->
  exists s',
    Detach s = Some s' /\
    Valid s' = false /\
    _threads s' = replicate (length (_threads s)) NotJoinable /\
    DetachedNum s' = size_add (_num_detached s) (Z.of_nat (length (_threads s))) /\
    detached_threads s' = detached_threads s ++ owned_workers (_threads s) /\
    in_flight s' = in_flight s /\
    _tasks s' = _tasks s /\ KilledNum s' = KilledNum s /\
    StartedNum s' = StartedNum s /\ FinishedNum s' = FinishedNum s /\
    ThreadNum s' = ThreadNum s.
Proof.
  intros Hall Hd. rewrite (Detach_joinable s Hall). eexists. split; [reflexivity|].
  unfold Valid, DetachedNum, KilledNum, StartedNum, FinishedNum, ThreadNum, in_flight.
  simpl. repeat split.
  - by apply iter_size_incr.
  - rewrite sumZ_app, (sumZ_replicate_zero running_owned) by done.
    assert (sumZ running (owned_workers (_threads s))
            = sumZ running_owned (_threads s)) as ->; [|lia].
    clear. induction (_threads s) as [|[w|] v IH]; simpl; lia.
Qed.

(** X6. [Detach] returns exactly when every handle is joinable; otherwise
    [detach()] throws out of a [noexcept] function.  So a second [Detach] on a
    pool that has handles never returns. *)
Theorem Detach_needs_joinable_handles s :
  ((exists s', Detach s = Some s') <->
   Forall (fun t => joinable t = true) (_threads s)) /\
  (forall s', Detach s = Some s' -> _threads s <> [] -> Detach s' = None).
Proof.
  assert (Hnec : forall s0 s1 : pool Task, Detach s0 = Some s1 ->
            Forall (fun t => joinable t = true) (_threads s0)).
  { intros s0 s1 Hrun. unfold Detach in Hrun. apply Forall_lookup. intros j t Hj.
    destruct (for_each_Detach_body_joinable _ _ _ _ Hrun j) as [w Hw].
    - simpl. apply lookup_lt_Some in Hj. lia.
    - simpl in Hw. by simplify_eq. }
  split; [split|].
  - intros [s' Hs']. by eapply Hnec.
  - intros Hall. rewrite (Detach_joinable s Hall). eauto.
  - intros s' Hs' Hne.
    destruct (Detach s') as [s''|] eqn:Hs''; [|done]. exfalso.
    pose proof (Hnec _ _ Hs'') as Hall'.
    rewrite (Detach_joinable s (Hnec _ _ Hs')) in Hs'. simplify_eq. simpl in Hall'.
    destruct (_threads s) as [|t v]; [done|]. simpl in Hall'.
    by inversion Hall'.
Qed.

(** ** Joining, case by case *)

Lemma not_live_running_owned (t : thread Task) :
  live t = false -> running_owned t = 0.
Proof. by destruct t as [[| |]|]. Qed.

Lemma join_if_joinable_cases i s (t : thread Task) :
  _stop s = true -> _threads s !! i = Some t ->
  join_if_joinable i s =
    Some (with_threads (<[i := NotJoinable]> (_threads s))
            (if live t
             then with_finished
                    (Nat.iter (Z.to_nat (running_owned t) + length (_tasks s))
                       size_incr (_num_finished s))
                    (with_tasks [] s)
             else s)).
Proof.
  intros Hs Hi. unfold join_if_joinable, join. rewrite Hi.
  destruct t as [[|task|]|]; simpl.
  - rewrite run_to_exit_stopped; [done|done|unfold join_fuel; lia].
  - rewrite run_to_exit_stopped; [done|done|unfold join_fuel; lia].
  - rewrite run_to_exit_stopped; [done|done|lia].
  - rewrite list_insert_id by done. destruct s; reflexivity.
Qed.

(** What a join on a stopped pool leaves alone. *)
Lemma join_if_joinable_frame i s s' :
  _stop s = true -> join_if_joinable i s = Some s' ->
  _stop s' = true /\ _num_started s' = _num_started s /\
  _num_killed s' = _num_killed s /\ _num_detached s' = _num_detached s /\
  _num_threads s' = _num_threads s /\ detached_threads s' = detached_threads s.
Proof.
  intros Hs Hjoin.
  destruct (_threads s !! i) as [t|] eqn:Hi;
    [|unfold join_if_joinable in Hjoin; by rewrite Hi in Hjoin].
  rewrite (join_if_joinable_cases i s t Hs Hi) in Hjoin. simplify_eq.
  destruct (live t); simpl; repeat split; done.
Qed.

(** ** Destruction and the pending tasks *)

(** X7. The destructor does not discard pending tasks.  If some handle still
    owns a worker that has not returned, the joined workers run the whole
    queue: it ends empty, and [_num_finished] grows by the tasks that were
    running on owned workers plus the tasks that were pending.  If no handle
    owns such a worker (after [Detach], say), the queue and [_num_finished]
    are left as they were. *)
Theorem Destroy_runs_pending_tasks s :
  is_size (_num_finished s) ->
  exists s',
    Destroy s = Some s' /\
    if existsb live (_threads s)
    then _tasks s' = [] /\
         FinishedNum s' =
           size_add (_num_finished s)
             (sumZ running_owned (_threads s) + PendingTaskNum s)
    else _tasks s' = _tasks s /\ FinishedNum s' = FinishedNum s.
Proof.
  intros Hf. unfold Destroy.
  pose (I := fun (i : nat) (s1 : pool Task) =>
    _stop s1 = true /\
    length (_threads s1) = length (_threads s) /\
    (forall j, (i <= j)%nat -> _threads s1 !! j = _threads s !! j) /\
    exists n : nat,
      _num_finished s1 = Nat.iter n size_incr (_num_finished s) /\
      if existsb live (take i (_threads s))
      then _tasks s1 = [] /\
           Z.of_nat n = sumZ running_owned (take i (_threads s))
                        + Z.of_nat (length (_tasks s))
      else _tasks s1 = _tasks s /\ n = 0%nat /\
           sumZ running_owned (take i (_threads s)) = 0).
  destruct (for_each_seq_total Destroy_body I 0 (length (_threads (with_stop true s)))
              (with_stop true s)) as (s' & Hs' & HI).
  - unfold I. simpl. split; [done|]. split; [done|]. split; [done|].
    exists 0%nat. simpl. auto.
  - intros i s1 Hi (Hs1 & Hlen & Hrest & n & Hfin & Hcase). simpl in Hi.
    destruct (lookup_lt_is_Some_2 (_threads s) i) as [t Ht]; [lia|].
    assert (Ht1 : _threads s1 !! i = Some t) by (rewrite Hrest by lia; done).
    unfold Destroy_body. rewrite (join_if_joinable_cases i s1 t Hs1 Ht1).
    eexists. split; [reflexivity|]. unfold I.
    rewrite (take_S_r _ _ _ Ht), existsb_app, sumZ_app. simpl.
    pose proof (running_owned_nonneg t) as Hro.
    split; [by destruct (live t)|].
    split; [destruct (live t); simpl; by rewrite length_insert|].
    split.
    { intros j Hj. destruct (live t); simpl;
        rewrite list_lookup_insert_ne by lia; apply Hrest; lia. }
    destruct (live t) eqn:Hlive; simpl.
    + rewrite orb_true_r.
      exists (Z.to_nat (running_owned t) + length (_tasks s1) + n)%nat.
      split; [by rewrite Hfin, <- Nat.iter_add|]. split; [done|].
      destruct (existsb live (take i (_threads s))).
      * destruct Hcase as [Hq Hn]. rewrite Hq. simpl. lia.
      * destruct Hcase as (Hq & Hn & Hsum). rewrite Hq. lia.
    + rewrite orb_false_r, (not_live_running_owned t Hlive).
      exists n. split; [done|].
      destruct (existsb live (take i (_threads s))).
      * destruct Hcase as [Hq Hn]. split; [done|lia].
      * destruct Hcase as (Hq & Hn & Hsum). split; [done|]. split; [done|lia].
  - destruct HI as (_ & _ & _ & n & Hfin & Hcase). simpl in Hcase.
    rewrite take_ge in Hcase by done.
    exists s'. split; [exact Hs'|]. unfold FinishedNum, PendingTaskNum.
    destruct (existsb live (_threads s)).
    + destruct Hcase as [-> Hn]. split; [done|].
      rewrite Hfin, iter_size_incr by done. by rewrite Hn.
    + destruct Hcase as (-> & -> & _). by rewrite Hfin.
Qed.

(** ** What each call writes *)

Local Ltac frame_solve := simpl; repeat split; try done; intuition congruence.

Lemma ResetThreadNum_frame (num_threads : Z) (window : list worker_id) s s' :
  ResetThreadNum num_threads window s = Some s' ->
  _stop s' = (if num_threads <? _num_threads s then false else _stop s) /\
  _num_threads s' = num_threads /\
  _num_started s' = _num_started s /\ _num_detached s' = _num_detached s.
Proof.
  unfold ResetThreadNum.
  destruct (Z.ltb_spec num_threads (_num_threads s)).
  - destruct (for_each _ _ _) as [s3|] eqn:Hloop; [|done].
    apply (for_each_preserves _ (fun s1 =>
             _stop s1 = true /\ _num_started s1 = _num_started s /\
             _num_detached s1 = _num_detached s)) in Hloop.
    + destruct (resize _ _); [|done]. intros [= <-]. frame_solve.
    + intros i s1 s2 (Hs1 & Hst & Hde) Hj.
      destruct (join_if_joinable_frame i s1 s2 Hs1 Hj) as (? & ? & _ & ? & _).
      repeat split; congruence.
    + destruct (run_workers_frame window
                  (pop_and_kill (_tasks (with_stop true s)) (with_stop true s)))
        as (-> & -> & _ & -> & _).
      rewrite pop_and_kill_eq. frame_solve.
  - destruct (Z.ltb_spec (_num_threads s) num_threads); intros [= <-].
    + rewrite iter_spawn. frame_solve.
    + repeat split. lia.
Qed.

Lemma exec_frame (a : action Task) s s' :
  exec a s = Some s' ->
  _stop s' = stop_after a s /\
  _num_threads s' = size_after a (_num_threads s) /\
  (is_Invoke a = false -> _num_started s' = _num_started s) /\
  (is_Detach a = false -> _num_detached s' = _num_detached s) /\
  (kills a = false -> _num_killed s' = _num_killed s) /\
  (is_Worker a || joins_workers a = false -> _num_finished s' = _num_finished s).
Proof.
  intros Hexec. destruct a as [function| | | | |num_threads|id|]; simpl in *.
  - simplify_eq. unfold Invoke. destruct (_stop s) eqn:E; simpl; rewrite ?E; frame_solve.
  - simplify_eq. rewrite KillAllPending_eq. frame_solve.
  - unfold Detach in Hexec.
    apply (for_each_preserves _ (fun s1 =>
             _stop s1 = true /\ _num_threads s1 = _num_threads s /\
             _num_started s1 = _num_started s /\ _num_killed s1 = _num_killed s /\
             _num_finished s1 = _num_finished s)) in Hexec.
    + frame_solve.
    + intros i s1 s2 H1 Hbody. unfold Detach_body in Hbody.
      destruct (_threads s1 !! i) as [[w|]|]; try done. simplify_eq.
      frame_solve.
    + frame_solve.
  - simplify_eq. rewrite Stop_eq. frame_solve.
  - rewrite StopForced_eq in Hexec.
    apply ResetThreadNum_frame in Hexec as (Hs & Hn & Hst & Hde).
    rewrite Stop_eq in *. simpl in *. rewrite Hs, Hn, Hst, Hde.
    destruct (0 <? _num_threads s); simpl; repeat split; done.
  - apply ResetThreadNum_frame in Hexec as (Hs & Hn & Hst & Hde).
    repeat split; done.
  - unfold worker_step, _working_task in Hexec. destruct id as [i|j].
    + destruct (_threads s !! i) as [[[|t|]|]|]; try done;
        [destruct (_tasks s); [destruct (_stop s) eqn:E; [|done]|]|];
        simplify_eq; simpl; repeat split; done.
    + destruct (detached_threads s !! j) as [[|t|]|]; try done;
        [destruct (_tasks s); [destruct (_stop s) eqn:E; [|done]|]|];
        simplify_eq; simpl; repeat split; done.
  - unfold Destroy in Hexec.
    apply (for_each_preserves _ (fun s1 =>
             _stop s1 = true /\ _num_threads s1 = _num_threads s /\
             _num_started s1 = _num_started s /\
             _num_detached s1 = _num_detached s)) in Hexec.
    + destruct Hexec as (? & ? & ? & ?). repeat split; done.
    + intros i s1 s2 (Hs1 & ? & ? & ?) Hbody. unfold Destroy_body in Hbody.
      destruct (join_if_joinable i s1) as [s1'|] eqn:Hj; [|done]. simplify_eq.
      destruct (join_if_joinable_frame i s1 s1' Hs1 Hj) as (? & ? & _ & ? & ? & _).
      simpl. repeat split; congruence.
    + frame_solve.
Qed.

(** X8. The stop flag after a call is the one the table [stop_after] gives:
    [Detach], [Stop] and the destructor leave it set; a [ResetThreadNum] below
    the current count, and a [StopForced] on a pool with threads, leave it
    clear; [Invoke], [KillAllPending], the workers, and a [ResetThreadNum]
    that does not shrink never change it. *)
Theorem stop_flag_after_call (a : action Task) s s' :
  exec a s = Some s' ->
  _stop s' = stop_after a s /\ Valid s' = negb (stop_after a s).
Proof.
  intros Hexec. apply exec_frame in Hexec as (Hs & _).
  unfold Valid. by rewrite Hs.
Qed.

Lemma run_last_size (acts : list (action Task)) s s' :
  run acts s = Some s' -> _num_threads s' = last_size (_num_threads s) acts.
Proof.
  revert s. induction acts as [|a acts IH]; intros s; simpl.
  - by intros [= <-].
  - destruct (exec a s) as [s1|] eqn:Hexec; [|done]. intros Hrun.
    apply exec_frame in Hexec as (_ & Hn & _).
    unfold last_size in *. simpl. rewrite <- Hn. by apply IH.
Qed.

(** X9. After any execution that returns, [ThreadNum()] is the argument of
    the last [ResetThreadNum] ([0] for a [StopForced]), or the constructor's
    argument if there was none: no other call, [Detach] and the destructor
    included, changes it. *)
Theorem ThreadNum_is_last_requested (num_threads : Z)
    (acts : list (action Task)) s :
  run acts (ThreadPool num_threads) = Some s ->
  ThreadNum s = last_size num_threads acts.
Proof.
  intros Hrun. unfold ThreadNum. rewrite (run_last_size _ _ _ Hrun).
  by rewrite ThreadPool_eq.
Qed.

(** X10. Each counter is written only by its own calls: [_num_started] only
    by [Invoke], [_num_detached] only by [Detach], [_num_killed] only by the
    calls that drain the queue and by the destructor, and [_num_finished]
    only by a worker, stepping by itself or joined by a call. *)
Theorem counters_written_by_their_calls (a : action Task) s s' :
  exec a s = Some s' ->
  (is_Invoke a = false -> StartedNum s' = StartedNum s) /\
  (is_Detach a = false -> DetachedNum s' = DetachedNum s) /\
  (kills a = false -> KilledNum s' = KilledNum s) /\
  (is_Worker a || joins_workers a = false -> FinishedNum s' = FinishedNum s).
Proof.
  intros Hexec. apply exec_frame in Hexec as (_ & _ & H). exact H.
Qed.

(** ** Who wakes a waiter *)

(** The calls that run no worker notify nobody on [_condition_finished]:
    [Stop], [Detach] and [Invoke] notify [_condition] only, and
    [KillAllPending] notifies nothing. *)
Lemma quiet_calls_notify_nobody (acts : list (action Task)) s :
  forallb quiet acts = true -> wakeups_during acts s = [].
Proof.
  revert s. induction acts as [|a acts IH]; intros s Hq; simpl in *; [done|].
  apply andb_true_iff in Hq as [Ha Hq].
  destruct (exec a s) as [s'|] eqn:Hexec; [|done].
  apply exec_frame in Hexec as (_ & _ & _ & _ & _ & Hfin).
  unfold notified. rewrite Hfin by (by destruct a).
  rewrite Z.eqb_refl. simpl. by apply IH.
Qed.

(** C2. A thread blocked in [WaitTill] is woken only by a worker that counts a
    task finished.  Calls that run no worker do not wake it: if the condition
    does not hold at the call, [WaitTill] is still blocked after any sequence
    of [Invoke], [KillAllPending], [Detach] and [Stop], also when one of them
    has stopped the pool or has brought [finished + killed] up to [n]. *)
Theorem WaitTill_sleeps_through_quiet_calls (num_tasks : Z)
    (_ignoreStopSignal : bool) (acts : list (action Task)) s :
  forallb quiet acts = true ->
  ~ wake_condition num_tasks _ignoreStopSignal s ->
  WaitTill num_tasks _ignoreStopSignal s (wakeups_during acts s) = None.
Proof.
  intros Hq Hn. rewrite quiet_calls_notify_nobody by done.
  unfold WaitTill. simpl.
  apply WaitTill_pred_false in Hn. by rewrite Hn.
Qed.

(** ** Resizing, in full *)

(** On a stopped pool with an empty queue a worker can only count the task
    it is running or return; neither loses a task. *)
Lemma drained_worker_step f0 F0 id s s' :
  drained_since f0 F0 s -> worker_step id s = Some s' -> drained_since f0 F0 s'.
Proof.
  intros (Hs & Hq & m & Hfin & Hsum) Hstep.
  unfold drained_since, in_flight in *.
  unfold worker_step, _working_task in Hstep. rewrite Hq, Hs in Hstep.
  destruct id as [i|j].
  - destruct (_threads s !! i) as [[[|t|]|]|] eqn:Hi; try done; simplify_eq; simpl.
    + split; [done|]. split; [done|]. exists m. split; [done|].
      rewrite (sumZ_insert _ _ _ _ _ Hi). simpl. lia.
    + split; [done|]. split; [done|]. exists (S m). split; [by rewrite Hfin|].
      rewrite (sumZ_insert _ _ _ _ _ Hi). simpl. lia.
  - destruct (detached_threads s !! j) as [[|t|]|] eqn:Hj; try done; simplify_eq; simpl.
    + split; [done|]. split; [done|]. exists m. split; [done|].
      rewrite (sumZ_insert _ _ _ _ _ Hj). simpl. lia.
    + split; [done|]. split; [done|]. exists (S m). split; [by rewrite Hfin|].
      rewrite (sumZ_insert _ _ _ _ _ Hj). simpl. lia.
Qed.

Lemma drained_run_workers f0 F0 sched s :
  drained_since f0 F0 s -> drained_since f0 F0 (run_workers sched s).
Proof.
  revert s. induction sched as [|id sched IH]; intros s Hd; simpl; [done|].
  destruct (worker_step id s) as [s'|] eqn:E; [|by apply IH].
  apply IH. by eapply drained_worker_step.
Qed.

Lemma drained_join_if_joinable f0 F0 i s s' :
  drained_since f0 F0 s -> join_if_joinable i s = Some s' -> drained_since f0 F0 s'.
Proof.
  intros (Hs & Hq & m & Hfin & Hsum) Hjoin.
  destruct (_threads s !! i) as [t|] eqn:Hi;
    [|unfold join_if_joinable in Hjoin; by rewrite Hi in Hjoin].
  rewrite (join_if_joinable_cases i s t Hs Hi) in Hjoin. simplify_eq.
  pose proof (running_owned_nonneg t) as Hro.
  unfold drained_since, in_flight in *.
  destruct (live t) eqn:Hlive; simpl.
  - split; [done|]. split; [done|].
    exists (Z.to_nat (running_owned t) + m)%nat.
    rewrite Hq, Nat.add_0_r, Nat.iter_add, Hfin. split; [done|].
    rewrite (sumZ_insert _ _ _ _ _ Hi). simpl. lia.
  - split; [done|]. split; [done|]. exists m. split; [done|].
    rewrite (sumZ_insert _ _ _ _ _ Hi), (not_live_running_owned t Hlive).
    simpl. lia.
Qed.

(** Shrinking loses no running task: what it counts finished is what stopped
    being run. *)
Lemma ResetThreadNum_shrink_conserves (num_threads : Z)
    (window : list worker_id) s s' :
  num_threads < _num_threads s ->
  ResetThreadNum num_threads window s = Some s' ->
  exists m : nat,
    _num_finished s' = Nat.iter m size_incr (_num_finished s) /\
    Z.of_nat m + in_flight s' = in_flight s.
Proof.
  intros Hlt. unfold ResetThreadNum.
  destruct (Z.ltb_spec num_threads (_num_threads s)); [|lia].
  destruct (for_each _ _ _) as [s3|] eqn:Hloop; [|done].
  apply (for_each_preserves _ (drained_since (_num_finished s) (in_flight s)))
    in Hloop.
  - destruct Hloop as (_ & _ & m & Hfin & Hsum).
    unfold resize. destruct (forallb _ _) eqn:Hdrop; [|done].
    intros [= <-]. apply forallb_true_Forall in Hdrop.
    exists m. split; [done|]. unfold in_flight in *. simpl.
    rewrite sumZ_app, sumZ_replicate_zero by done.
    rewrite <- (take_drop (Z.to_nat num_threads) (_threads s3)) in Hsum.
    rewrite sumZ_app, (sumZ_zero running_owned (drop _ _)) in Hsum; [lia|].
    revert Hdrop. apply Forall_impl. by intros [w|].
  - intros i s1 s2. apply drained_join_if_joinable.
  - apply drained_run_workers. rewrite pop_and_kill_eq.
    unfold drained_since, in_flight. simpl.
    split; [done|]. split; [by destruct (_tasks s)|].
    exists 0%nat. simpl. split; [done|lia].
Qed.

(** X11. Shrinking loses no task silently, whatever the other workers do
    while the lock is released for the joins.  [ResetThreadNum(k)] with [k]
    below the current count returns with the queue empty and every pending
    task counted killed; every task that was being run is either counted
    finished by the time it returns or still being run (by a kept or a
    detached worker); [k] handles are left, and [_num_started] and
    [_num_detached] are unchanged. *)
Theorem ResetThreadNum_shrink_counts_every_task (num_threads : Z)
    (window : list worker_id) s :
  pool_ok s -> 0 <= num_threads < ThreadNum s ->
  exists s',
    ResetThreadNum num_threads window s = Some s' /\
    _tasks s' = [] /\
    KilledNum s' = size_add (_num_killed s) (PendingTaskNum s) /\
    FinishedNum s' = size_add (_num_finished s) (in_flight s - in_flight s') /\
    0 <= in_flight s' <= in_flight s /\
    length (_threads s') = Z.to_nat num_threads /\
    StartedNum s' = StartedNum s /\ DetachedNum s' = DetachedNum s.
Proof.
  intros (Hnt & Hst & Hki & Hfi & Hde & Hlen) Hk. unfold ThreadNum in Hk.
  destruct (ResetThreadNum_shrink num_threads window s Hk Hlen) as (n & Hrun).
  destruct (ResetThreadNum_shrink_conserves num_threads window s _ (proj2 Hk) Hrun)
    as (m & Hfin & Hsum).
  match type of Hrun with context [run_workers window ?X] =>
    destruct (run_workers_stopped_empty window X eq_refl eq_refl) as [_ Hwq];
    destruct (run_workers_frame window X) as (_ & Hwst & Hwk & Hwd & _ & Hwl)
  end.
  simpl in Hwst, Hwk, Hwd, Hwl.
  eexists. split; [exact Hrun|].
  pose proof (in_flight_nonneg
    (with_stop false (with_num_threads num_threads
       (with_threads (take (Z.to_nat num_threads)
          (_threads (run_workers window
             (with_killed (Nat.iter (length (_tasks s)) size_incr (_num_killed s))
                (with_tasks [] (with_stop true s))))))
          (with_finished
             (Nat.iter n size_incr
                (_num_finished (run_workers window
                   (with_killed (Nat.iter (length (_tasks s)) size_incr (_num_killed s))
                      (with_tasks [] (with_stop true s))))))
             (run_workers window
                (with_killed (Nat.iter (length (_tasks s)) size_incr (_num_killed s))
                   (with_tasks [] (with_stop true s))))))))) as Hfl.
  unfold KilledNum, FinishedNum, StartedNum, DetachedNum, PendingTaskNum.
  split; [exact Hwq|].
  split; [simpl; rewrite Hwk; by apply iter_size_incr|].
  split; [rewrite Hfin, iter_size_incr by done; f_equal; lia|].
  split; [lia|].
  split; [simpl; rewrite length_take; lia|].
  split; [exact Hwst|exact Hwd].
Qed.

(** X12. Growing adds idle workers and nothing else: the old handles, the
    queue, the counters and the stop flag are as they were, so growing a
    stopped pool does not make it accept tasks. *)
Theorem ResetThreadNum_grow_adds_idle_workers (num_threads : Z)
    (window : list worker_id) s :
  Z.of_nat (length (_threads s)) = _num_threads s ->
  ThreadNum s < num_threads ->
  exists s',
    ResetThreadNum num_threads window s = Some s' /\
    _threads s' =
      _threads s ++
      replicate (Z.to_nat (num_threads - ThreadNum s)) (Joinable Waiting) /\
    ThreadNum s' = num_threads /\
    Valid s' = Valid s /\ _tasks s' = _tasks s /\
    StartedNum s' = StartedNum s /\ FinishedNum s' = FinishedNum s /\
    KilledNum s' = KilledNum s /\ DetachedNum s' = DetachedNum s /\
    in_flight s' = in_flight s.
Proof.
  unfold ThreadNum. intros Hlen Hgt. unfold ResetThreadNum.
  destruct (Z.ltb_spec num_threads (_num_threads s)); [lia|].
  destruct (Z.ltb_spec (_num_threads s) num_threads); [|lia].
  eexists. split; [reflexivity|]. rewrite iter_spawn. simpl.
  rewrite Hlen. repeat split.
  unfold in_flight. simpl. rewrite sumZ_app, sumZ_replicate_zero by done. lia.
Qed.

(** X13. A forced stop followed by a resize restarts the pool: it is valid
    again, with [k] fresh idle workers and an empty queue.  The counters are
    not reset: [_num_started] and [_num_detached] keep their values, and the
    tasks killed by the stop stay counted.  This holds whatever the workers
    do while the lock is released for the joins. *)
Theorem StopForced_then_resize_restarts (num_threads : Z)
    (window window' : list worker_id) s :
  pool_ok s -> 1 <= ThreadNum s -> 1 <= num_threads ->
  exists s',
    run [AStopForced window; AResetThreadNum num_threads window'] s = Some s' /\
    Valid s' = true /\
    _threads s' = replicate (Z.to_nat num_threads) (Joinable Waiting) /\
    ThreadNum s' = num_threads /\ IsNoPending s' = true /\
    StartedNum s' = StartedNum s /\ DetachedNum s' = DetachedNum s /\
    KilledNum s' = size_add (_num_killed s) (PendingTaskNum s).
Proof.
  intros (Hnt & Hst & Hki & Hfi & Hde & Hlen) Hpos Hk. unfold ThreadNum in *.
  cbn [run exec]. rewrite StopForced_eq, Stop_eq.
  destruct (ResetThreadNum_shrink 0 window
              (with_killed (Nat.iter (length (_tasks s)) size_incr (_num_killed s))
                 (with_tasks [] (with_stop true s)))) as (n & Hrun);
    [simpl; lia|done|].
  simpl in Hrun. rewrite Hrun.
  match type of Hrun with context [run_workers window ?X] =>
    destruct (run_workers_stopped_empty window X eq_refl eq_refl) as [_ Hwq];
    destruct (run_workers_frame window X) as (_ & Hwst & Hwk & Hwd & _)
  end.
  simpl in Hwst, Hwk, Hwd.
  unfold ResetThreadNum. simpl.
  destruct (Z.ltb_spec num_threads 0); [lia|].
  destruct (Z.ltb_spec 0 num_threads); [|lia].
  eexists. split; [reflexivity|]. rewrite iter_spawn. simpl.
  rewrite Z.sub_0_r.
  unfold Valid, ThreadNum, IsNoPending, StartedNum, DetachedNum, KilledNum,
    PendingTaskNum. simpl. rewrite Hwq, Hwst, Hwk, Hwd.
  repeat split. by apply iter_size_incr.
Qed.

(** ** Waiting, at the edges *)

(** X14. [WaitTill(n)] does not block once [n] tasks have finished: it
    returns [true] from the state of the call, whatever the flag and whatever
    the stop flag. *)
Theorem WaitTill_returns_at_once (num_tasks : Z) (_ignoreStopSignal : bool)
    s (wakeups : list (pool Task)) :
  num_tasks <= _num_finished s -> 0 <= _num_killed s ->
  _num_finished s + _num_killed s < size_modulus ->
  WaitTill num_tasks _ignoreStopSignal s wakeups = Some true.
Proof.
  intros Hn Hk Hsum. unfold WaitTill.
  assert (Hpred : WaitTill_pred num_tasks _ignoreStopSignal s = true).
  { apply WaitTill_pred_spec. left. unfold size_add.
    destruct (Z.le_gt_cases 0 (_num_finished s + _num_killed s)).
    - rewrite Z.mod_small by lia. lia.
    - pose proof (Z.mod_pos_bound (_num_finished s + _num_killed s) size_modulus).
      unfold size_modulus in *. lia. }
  destruct wakeups; simpl; rewrite Hpred; f_equal; by apply Z.leb_le.
Qed.


(** X16. [WaitTillNoPending] returns in the first state it checks whose
    queue is empty, and in no state with a pending task; neither the stop
    flag nor a task still running holds it back, so on a pool with an empty
    queue it returns from the state of the call. *)
Theorem WaitTillNoPending_waits_for_empty_queue s (wakeups : list (pool Task)) :
  (forall s',
     WaitTillNoPending s wakeups = Some s' <->
     exists before after,
       s :: wakeups = before ++ s' :: after /\
       Forall (fun x => _tasks x <> []) before /\ _tasks s' = []) /\
  (WaitTillNoPending s wakeups = None <->
   Forall (fun x => _tasks x <> []) (s :: wakeups)) /\
  (_tasks s = [] -> WaitTillNoPending s wakeups = Some s).
Proof.
  assert (Hemp : forall x : pool Task, IsNoPending x = true <-> _tasks x = []).
  { intros x. unfold IsNoPending. by destruct (_tasks x). }
  assert (Hne : forall x : pool Task, IsNoPending x = false <-> _tasks x <> []).
  { intros x. unfold IsNoPending. by destruct (_tasks x). }
  unfold WaitTillNoPending. split; [|split].
  - intros s'. rewrite cv_wait_Some. split.
    + intros (before & after & Heq & Hb & Hp). exists before, after.
      split; [done|]. split; [|by apply Hemp].
      revert Hb. apply Forall_impl. intros x. apply Hne.
    + intros (before & after & Heq & Hb & Hp). exists before, after.
      split; [done|]. split; [|by apply Hemp].
      revert Hb. apply Forall_impl. intros x. apply Hne.
  - rewrite cv_wait_None. split; apply Forall_impl; intros x; apply Hne.
  - intros Hq. apply Hemp in Hq. destruct wakeups; simpl; by rewrite Hq.
Qed.

(** ** Stopping and submitting *)

Lemma run_Invokes_stopped (ts : list Task) s :
  _stop s = true -> run (map AInvoke ts) s = Some s.
Proof.
  intros Hs. induction ts as [|t ts IH]; [done|].
  cbn [map run exec]. unfold Invoke. rewrite Hs. exact IH.
Qed.

(** X17. [Stop] is [KillAllPending] with the stop flag set, the two absorb
    each other, and after it the pool reports no pending task and drops every
    later submission without a trace. *)
Theorem Stop_is_KillAllPending_with_flag s :
  Stop s = with_stop true (KillAllPending s) /\
  KillAllPending (Stop s) = Stop s /\
  Stop (KillAllPending s) = Stop s /\
  IsNoPending (Stop s) = true /\ PendingTaskNum (Stop s) = 0 /\
  Valid (Stop s) = false /\
  forall ts : list Task, run (map AInvoke ts) (Stop s) = Some (Stop s).
Proof.
  split; [by rewrite Stop_eq, KillAllPending_eq|].
  split; [by rewrite KillAllPending_eq, Stop_eq|].
  split; [by rewrite !Stop_eq, KillAllPending_eq|].
  split; [by rewrite Stop_eq|]. split; [by rewrite Stop_eq|].
  split; [by rewrite Stop_eq|].
  intros ts. apply run_Invokes_stopped. by rewrite Stop_eq.
Qed.

(** X18. Submissions to a pool that is not stopped queue up in the order
    they are made, behind what was pending: the queue grows by the submitted
    tasks, [PendingTaskNum] by their number, and [_num_started] counts each;
    no handle, no worker (owned or detached), no other counter, and neither
    the thread count nor the stop flag is touched. *)
Theorem submissions_queue_in_order (ts : list Task) s :
  _stop s = false -> is_size (_num_started s) ->
  exists s',
    run (map AInvoke ts) s = Some s' /\
    _tasks s' = _tasks s ++ ts /\
    PendingTaskNum s' = PendingTaskNum s + Z.of_nat (length ts) /\
    StartedNum s' = size_add (_num_started s) (Z.of_nat (length ts)) /\
    (IsNoPending s' = true <-> _tasks s = [] /\ ts = []) /\
    _threads s' = _threads s /\ detached_threads s' = detached_threads s /\
    in_flight s' = in_flight s /\
    FinishedNum s' = FinishedNum s /\ KilledNum s' = KilledNum s /\
    DetachedNum s' = DetachedNum s /\ ThreadNum s' = ThreadNum s /\
    _stop s' = false.
Proof.
  intros Hs Hst. rewrite run_map_Invoke by done. eexists. split; [reflexivity|].
  unfold PendingTaskNum, StartedNum, IsNoPending, FinishedNum, KilledNum,
    DetachedNum, ThreadNum. simpl.
  split; [done|]. split; [rewrite length_app; lia|].
  split; [by apply iter_size_incr|].
  split; [|repeat split; done].
  destruct (_tasks s), ts; simpl; intuition congruence.
Qed.

(** ** What can be relied on in every reachable state *)

(** X19. The class invariant holds in every state an execution reaches from
    a new pool: [_num_threads] is the size of [_threads] (so the indices
    [ResetThreadNum] joins are always in range) and the five counters are
    [size_t] values.  The destructor keeps it too. *)
Theorem class_invariant_is_kept (num_threads : Z) (acts : list (action Task)) s :
  is_size num_threads -> Forall well_typed acts ->
  run acts (ThreadPool num_threads) = Some s ->
  pool_ok s /\ Z.of_nat (length (_threads s)) = ThreadNum s.
Proof.
  intros Hn Hty Hrun.
  assert (Hok : pool_ok s).
  { eapply pool_ok_run; [exact Hty| |exact Hrun]. by apply pool_ok_ThreadPool. }
  split; [exact Hok|]. apply Hok.
Qed.

End Coverage.

(** * The further properties at concrete pools *)

Lemma ThreadPool_starts_idle_witness :
  is_size 2 /\
  _threads (ThreadPool (Task := nat) 2) = [Joinable Waiting; Joinable Waiting] /\
  Valid (ThreadPool (Task := nat) 2) = true /\
  worker_step (Owned 1) (ThreadPool (Task := nat) 2) = None.
Proof.
  assert (H2 : is_size 2) by (unfold is_size, size_modulus; lia).
  split; [exact H2|].
  destruct (ThreadPool_starts_idle (Task := nat) 2 H2)
    as (Hv & _ & Hvalid & _ & _ & _ & _ & _ & _ & _ & Hstep).
  split; [exact Hv|]. split; [exact Hvalid|apply Hstep].
Defined.

Lemma worker_takes_in_queue_order_witness :
  _threads busy_pool !! 1%nat = Some (Joinable Waiting) /\
  _tasks busy_pool !! 1%nat = Some 9%nat /\
  run (replicate 3 (AWorker (Owned 1))) busy_pool =
    Some {| _threads := [Joinable (Running 7%nat); Joinable (Running 9%nat)];
            _tasks := []; _num_threads := 2; _num_started := 5;
            _num_killed := 1; _num_finished := 2; _num_detached := 0;
            _stop := false; detached_threads := [] |}.
Proof.
  split; [reflexivity|]. split; [reflexivity|].
  exact (worker_takes_in_queue_order 1 1 busy_pool 9%nat eq_refl eq_refl).
Defined.

Lemma worker_drains_queue_witness :
  _threads busy_pool !! 1%nat = Some (Joinable Waiting) /\
  run (replicate 4 (AWorker (Owned 1))) busy_pool =
    Some (with_finished 3 (with_tasks [] busy_pool)) /\
  worker_step (Owned 1) (with_finished 3 (with_tasks [] busy_pool)) = None.
Proof.
  split; [reflexivity|].
  destruct (worker_drains_queue 1 busy_pool eq_refl) as (Hrun & _ & Hblocked).
  split; [exact Hrun|exact (Hblocked eq_refl)].
Defined.

Lemma submitted_tasks_all_finish_witness :
  1 <= 2 /\ Z.of_nat (length [1%nat; 2%nat; 3%nat]) < size_modulus /\
  exists s : pool nat,
    run (map AInvoke [1%nat; 2%nat; 3%nat]
           ++ replicate (2 * 3) (AWorker (Owned 0))) (ThreadPool 2) = Some s /\
    FinishedNum s = 3 /\ WaitTillAll false s [] = Some true.
Proof.
  assert (H1 : 1 <= 2) by lia.
  assert (H2 : Z.of_nat (length [1%nat; 2%nat; 3%nat]) < size_modulus) by reflexivity.
  split; [exact H1|]. split; [exact H2|].
  destruct (submitted_tasks_all_finish 2 [1%nat; 2%nat; 3%nat] false H1 H2)
    as (s & Hrun & _ & Hfin & _ & _ & _ & Hwait).
  exists s. split; [exact Hrun|]. split; [exact Hfin|exact Hwait].
Defined.

Lemma all_joinable_busy_pool :
  Forall (fun t : thread nat => joinable t = true) (_threads busy_pool).
Proof. repeat constructor. Qed.

Lemma Detach_releases_every_worker_witness :
  Forall (fun t : thread nat => joinable t = true) (_threads busy_pool) /\
  is_size (_num_detached busy_pool) /\
  exists s' : pool nat,
    Detach busy_pool = Some s' /\ Valid s' = false /\
    DetachedNum s' = size_add 0 2 /\
    detached_threads s' = [Running 7%nat; Waiting] /\
    _tasks s' = [8%nat; 9%nat].
Proof.
  assert (Hd : is_size (_num_detached busy_pool))
    by (unfold is_size, size_modulus; simpl; lia).
  split; [exact all_joinable_busy_pool|]. split; [exact Hd|].
  destruct (Detach_releases_every_worker busy_pool all_joinable_busy_pool Hd)
    as (s' & Hrun & Hv & _ & Hn & Hdt & _ & Hq & _).
  exists s'. split; [exact Hrun|]. split; [exact Hv|]. split; [exact Hn|].
  split; [exact Hdt|exact Hq].
Defined.

Lemma Destroy_runs_pending_tasks_witness :
  is_size (_num_finished busy_pool) /\
  exists s' : pool nat,
    Destroy busy_pool = Some s' /\ _tasks s' = [] /\
    FinishedNum s' = size_add 1 (1 + 2).
Proof.
  assert (Hf : is_size (_num_finished busy_pool))
    by (unfold is_size, size_modulus; simpl; lia).
  split; [exact Hf|].
  destruct (Destroy_runs_pending_tasks busy_pool Hf) as (s' & Hrun & Hq & Hfin).
  exists s'. split; [exact Hrun|]. split; [exact Hq|exact Hfin].
Defined.

Lemma stop_flag_after_call_witness :
  exec (AStopForced []) busy_pool =
    Some {| _threads := []; _tasks := []; _num_threads := 0; _num_started := 5;
            _num_killed := 3; _num_finished := 2; _num_detached := 0;
            _stop := false; detached_threads := [] |} /\
  stop_after (AStopForced []) busy_pool = false.
Proof.
  split; [reflexivity|].
  destruct (stop_flag_after_call (AStopForced []) busy_pool _ StopForced_busy_pool)
    as [Hs _].
  symmetry. exact Hs.
Defined.

Lemma ThreadNum_is_last_requested_witness :
  run sample_execution (ThreadPool 2) = Some sample_outcome /\
  ThreadNum sample_outcome = last_size 2 sample_execution /\
  last_size 2 sample_execution = 1.
Proof.
  split; [reflexivity|]. split; [|reflexivity].
  apply (ThreadNum_is_last_requested 2 sample_execution sample_outcome).
  reflexivity.
Defined.

Lemma counters_written_by_their_calls_witness :
  exec AStop busy_pool = Some (Stop busy_pool) /\
  StartedNum (Stop busy_pool) = StartedNum busy_pool /\
  FinishedNum (Stop busy_pool) = FinishedNum busy_pool.
Proof.
  split; [reflexivity|].
  destruct (counters_written_by_their_calls AStop busy_pool (Stop busy_pool) eq_refl)
    as (Hst & _ & _ & Hfin).
  split; [exact (Hst eq_refl)|exact (Hfin eq_refl)].
Defined.

Lemma ResetThreadNum_shrink_counts_every_task_witness :
  pool_ok busy_pool /\ 0 <= 1 < ThreadNum busy_pool /\
  exists s' : pool nat,
    ResetThreadNum 1 [Owned 0; Owned 0] busy_pool = Some s' /\
    KilledNum s' = size_add 1 2 /\
    FinishedNum s' = size_add 1 (in_flight busy_pool - in_flight s') /\
    length (_threads s') = 1%nat.
Proof.
  assert (Hk : 0 <= 1 < ThreadNum busy_pool) by (simpl; lia).
  split; [exact pool_ok_busy_pool|]. split; [exact Hk|].
  destruct (ResetThreadNum_shrink_counts_every_task 1 [Owned 0; Owned 0] busy_pool
              pool_ok_busy_pool Hk)
    as (s' & Hrun & _ & Hkill & Hfin & _ & Hlen & _).
  exists s'. split; [exact Hrun|]. split; [exact Hkill|].
  split; [exact Hfin|exact Hlen].
Defined.

Lemma ResetThreadNum_grow_adds_idle_workers_witness :
  Z.of_nat (length (_threads busy_pool)) = _num_threads busy_pool /\
  ThreadNum busy_pool < 4 /\
  exists s' : pool nat,
    ResetThreadNum 4 [] busy_pool = Some s' /\
    _threads s' =
      [Joinable (Running 7%nat); Joinable Waiting; Joinable Waiting; Joinable Waiting] /\
    _tasks s' = [8%nat; 9%nat].
Proof.
  assert (Hgt : ThreadNum busy_pool < 4) by (simpl; lia).
  split; [reflexivity|]. split; [exact Hgt|].
  destruct (ResetThreadNum_grow_adds_idle_workers 4 [] busy_pool eq_refl Hgt)
    as (s' & Hrun & Hv & _ & _ & Hq & _).
  exists s'. split; [exact Hrun|]. split; [exact Hv|exact Hq].
Defined.

Lemma StopForced_then_resize_restarts_witness :
  pool_ok busy_pool /\ 1 <= ThreadNum busy_pool /\ 1 <= 3 /\
  exists s' : pool nat,
    run [AStopForced [Owned 1]; AResetThreadNum 3 []] busy_pool = Some s' /\
    Valid s' = true /\
    _threads s' = [Joinable Waiting; Joinable Waiting; Joinable Waiting] /\
    StartedNum s' = 5.
Proof.
  assert (H1 : 1 <= ThreadNum busy_pool) by (simpl; lia).
  assert (H3 : 1 <= 3) by lia.
  split; [exact pool_ok_busy_pool|]. split; [exact H1|]. split; [exact H3|].
  destruct (StopForced_then_resize_restarts 3 [Owned 1] [] busy_pool
              pool_ok_busy_pool H1 H3)
    as (s' & Hrun & Hv & Hth & _ & _ & Hst & _).
  exists s'. split; [exact Hrun|]. split; [exact Hv|]. split; [exact Hth|exact Hst].
Defined.

Lemma WaitTill_returns_at_once_witness :
  1 <= _num_finished busy_pool /\ 0 <= _num_killed busy_pool /\
  _num_finished busy_pool + _num_killed busy_pool < size_modulus /\
  WaitTill 1 true busy_pool [Stop busy_pool] = Some true.
Proof.
  assert (H1 : 1 <= _num_finished busy_pool) by (simpl; lia).
  assert (H2 : 0 <= _num_killed busy_pool) by (simpl; lia).
  assert (H3 : _num_finished busy_pool + _num_killed busy_pool < size_modulus)
    by reflexivity.
  split; [exact H1|]. split; [exact H2|]. split; [exact H3|].
  exact (WaitTill_returns_at_once 1 true busy_pool [Stop busy_pool] H1 H2 H3).
Defined.


Lemma submissions_queue_in_order_witness :
  _stop busy_pool = false /\ is_size (_num_started busy_pool) /\
  exists s' : pool nat,
    run (map AInvoke [1%nat; 2%nat]) busy_pool = Some s' /\
    _tasks s' = [8%nat; 9%nat; 1%nat; 2%nat] /\
    PendingTaskNum s' = 2 + 2.
Proof.
  assert (Hst : is_size (_num_started busy_pool))
    by (unfold is_size, size_modulus; simpl; lia).
  split; [reflexivity|]. split; [exact Hst|].
  destruct (submissions_queue_in_order [1%nat; 2%nat] busy_pool eq_refl Hst)
    as (s' & Hrun & Hq & Hn & _).
  exists s'. split; [exact Hrun|]. split; [exact Hq|exact Hn].
Defined.

Lemma class_invariant_is_kept_witness :
  is_size 2 /\ Forall well_typed sample_execution /\
  run sample_execution (ThreadPool 2) = Some sample_outcome /\
  pool_ok sample_outcome.
Proof.
  assert (H2 : is_size 2) by (unfold is_size, size_modulus; lia).
  assert (Hty : Forall well_typed sample_execution).
  { repeat (apply List.Forall_cons; [simpl; try exact I;
                                     unfold is_size, size_modulus; lia|]).
    apply List.Forall_nil. }
  split; [exact H2|]. split; [exact Hty|]. split; [reflexivity|].
  destruct (class_invariant_is_kept 2 sample_execution sample_outcome H2 Hty eq_refl)
    as [Hok _].
  exact Hok.
Defined.

(** * Where the code departs from its description *)

(** C2, at concrete pools.  A waiter for one completion on a new pool of one
    thread is not woken by [Stop], although the pool is then stopped; and a
    waiter that ignores the stop signal is not woken by [KillAllPending],
    although [finished + killed] has then reached its target. *)
Lemma WaitTill_sleeps_through_quiet_calls_witness :
  (forallb quiet [AStop (Task := nat)] = true /\
   ~ wake_condition 1 false (ThreadPool (Task := nat) 1) /\
   run [AStop] (ThreadPool (Task := nat) 1) = Some (Stop (ThreadPool 1)) /\
   wake_condition 1 false (Stop (ThreadPool (Task := nat) 1)) /\
   WaitTill 1 false (ThreadPool (Task := nat) 1)
     (wakeups_during [AStop] (ThreadPool 1)) = None) /\
  (forallb quiet [AKillAllPending (Task := nat)] = true /\
   ~ wake_condition 1 true (Invoke 7%nat (ThreadPool 0)) /\
   run [AKillAllPending] (Invoke 7%nat (ThreadPool 0))
     = Some (KillAllPending (Invoke 7%nat (ThreadPool 0))) /\
   wake_condition 1 true (KillAllPending (Invoke 7%nat (ThreadPool 0))) /\
   WaitTill 1 true (Invoke 7%nat (ThreadPool 0))
     (wakeups_during [AKillAllPending] (Invoke 7%nat (ThreadPool 0))) = None).
Proof.
  assert (H1 : ~ wake_condition 1 false (ThreadPool (Task := nat) 1)).
  { intros [H|[_ H]]; [vm_compute in H; by apply H|discriminate H]. }
  assert (H2 : ~ wake_condition 1 true (Invoke 7%nat (ThreadPool 0))).
  { intros [H|[H _]]; [vm_compute in H; by apply H|discriminate H]. }
  split.
  - split; [reflexivity|]. split; [exact H1|]. split; [reflexivity|].
    split; [right; split; reflexivity|].
    exact (WaitTill_sleeps_through_quiet_calls 1 false [AStop] (ThreadPool 1)
             eq_refl H1).
  - split; [reflexivity|]. split; [exact H2|]. split; [reflexivity|].
    split; [left; vm_compute; discriminate|].
    exact (WaitTill_sleeps_through_quiet_calls 1 true [AKillAllPending]
             (Invoke 7%nat (ThreadPool 0)) eq_refl H2).
Defined.

(** C4.  [ResetThreadNum(1)] on a new pool of two idle workers, with the kept
    worker woken while the lock is released for the join: the call returns
    with [ThreadNum() = 1] and [Valid() = true], but the kept worker has found
    the stop flag set and has returned.  The pool then accepts a task that no
    worker will ever take: it is not usable at the smaller size. *)
Theorem ResetThreadNum_kept_worker_returns :
  ResetThreadNum 1 [Owned 0] (ThreadPool 2) = Some shrunk_pool /\
  ThreadNum shrunk_pool = 1 /\ Valid shrunk_pool = true /\
  _threads shrunk_pool = [Joinable Exited] /\
  _tasks (Invoke 7%nat shrunk_pool) = [7%nat] /\
  StartedNum (Invoke 7%nat shrunk_pool) = 1 /\
  (forall id, worker_step id (Invoke 7%nat shrunk_pool) = None) /\
  (forall sched,
     run_workers sched (Invoke 7%nat shrunk_pool) = Invoke 7%nat shrunk_pool).
Proof.
  assert (Hstep : forall id, worker_step id (Invoke 7%nat shrunk_pool) = None).
  { intros [[|i]|j]; reflexivity. }
  do 6 (split; [reflexivity|]). split; [exact Hstep|].
  intros sched. induction sched as [|id sched IH]; [reflexivity|].
  simpl. rewrite Hstep. exact IH.
Qed.
